(** * PIPOU-STORE: the file-backed article store and its session gate

    A shallow embedding of the Express servers of the repository:

    - [Main]    is [server.js]                (async handlers, validation, 401 gate);
    - [Part000] is the unnamed server that still serves [GET /articles.json]
                and [GET /fond] through handlers with a [try]/[catch];
    - [Data]    is [data/server.js]           (callback handlers, redirecting gate);
    - [Legacy]  is [uploads/PIPOU/server.js]  (no gate, articles addressed by position).

    A handler is a function from the request and the disk to the response
    and the disk it leaves behind.  The JavaScript built-ins the handlers
    call ([JSON.parse], [JSON.stringify], [parseInt], ...) are the fields of
    the class [Builtins]; every theorem holds for every instance. *)

From Stdlib Require Import Ascii.
From stdpp Require Import gmap strings list fin_maps countable pretty.

(** ** JSON values *)

(** What [JSON.parse] returns and what [JSON.stringify] accepts.  An object
    is a finite map of its own properties, so that two objects with the same
    properties are equal.  Numbers are the integers: ids come from
    [Date.now()] and [parseInt]; the fractional part of a price plays no
    role in any handler. *)
#[warnings="-register-all"]
Inductive json :=
| JNull
| JBool (b : bool)
| JNum (z : Z)
| JStr (s : string)
| JArr (l : list json)
| JObj (m : gmap string json).

Abbreviation fields := (gmap string json).

(** A JavaScript number as [parseInt] returns it. *)
Inductive number :=
| NaN
| Int (z : Z).

(** A JavaScript expression either yields a value or throws; the only
    exceptions the handlers can raise by themselves are [TypeError]s. *)
Inductive outcome (A : Type) :=
| Ok (a : A)
| TypeError.
Arguments Ok {A} a.
Arguments TypeError {A}.

(** A property that may be missing reads as [undefined], here [None]. *)
Definition truthy (v : option json) : bool :=
  match v with
  | None => false
  | Some JNull => false
  | Some (JBool b) => b
  | Some (JNum z) => negb (z =? 0)%Z
  | Some (JStr s) => negb (String.eqb s "")
  | Some (JArr _) => true
  | Some (JObj _) => true
  end.

(** [v === s] for a string [s]. *)
Definition strict_eq_string (v : option json) (s : string) : bool :=
  match v with
  | Some (JStr s') => String.eqb s' s
  | _ => false
  end.

(** [v === n] for a number [n]; [NaN] is equal to nothing. *)
Definition strict_eq_number (v : option json) (n : number) : bool :=
  match v, n with
  | Some (JNum z), Int z' => (z =? z')%Z
  | _, _ => false
  end.

(** [a.id]: reading a property of [null] throws, a primitive or an array
    has no property of that name. *)
Definition prop_id (a : json) : outcome (option json) :=
  match a with
  | JNull => TypeError
  | JObj m => Ok (m !! "id")
  | _ => Ok None
  end.

(** The callbacks [a => a.id === id] and [a => a.id !== id]. *)
Definition id_is (id : number) (a : json) : outcome bool :=
  match prop_id a with
  | Ok v => Ok (strict_eq_number v id)
  | TypeError => TypeError
  end.

Definition id_is_not (id : number) (a : json) : outcome bool :=
  match prop_id a with
  | Ok v => Ok (negb (strict_eq_number v id))
  | TypeError => TypeError
  end.

(** [Array.prototype.findIndex]: [Ok None] is the result [-1]. *)
Fixpoint findIndex (p : json → outcome bool) (l : list json) : outcome (option nat) :=
  match l with
  | [] => Ok None
  | a :: l' =>
      match p a with
      | TypeError => TypeError
      | Ok true => Ok (Some 0)
      | Ok false =>
          match findIndex p l' with
          | Ok (Some i) => Ok (Some (S i))
          | r => r
          end
      end
  end.

(** [Array.prototype.filter]. *)
Fixpoint array_filter (p : json → outcome bool) (l : list json) : outcome (list json) :=
  match l with
  | [] => Ok []
  | a :: l' =>
      match p a with
      | TypeError => TypeError
      | Ok keep =>
          match array_filter p l' with
          | Ok r => Ok (if keep then a :: r else r)
          | TypeError => TypeError
          end
      end
  end.

(** The value [JSON.stringify] writes for a number: [NaN] becomes [null]. *)
Definition number_json (n : number) : json :=
  match n with
  | Int z => JNum z
  | NaN => JNull
  end.

(** [data || '[]'] *)
Definition or_brackets (data : string) : string :=
  if String.eqb data "" then "[]" else data.

(** [{ key: 'text' }]. *)
Definition obj1 (key text : string) : json := JObj {[ key := JStr text ]}.

(** ** The built-ins *)

Class Builtins := {
  (** [JSON.parse(text)]; [None] when it throws a [SyntaxError]. *)
  JSON_parse : string → option json;
  (** [JSON.stringify(value, null, 2)]. *)
  JSON_stringify : json → string;
  (** [parseInt(text)]. *)
  parseInt : string → number;
  (** The conversion to a number that [<] applies to its right operand. *)
  ToNumber : json → number;
  (** express-validator's [isFloat({ gt: 0 })] on a field of the body. *)
  isFloat_gt0 : option json → bool;
  (** What [JSON.stringify] writes, [JSON.parse] reads back. *)
  JSON_parse_stringify v : JSON_parse (JSON_stringify v) = Some v;
  JSON_parse_brackets : JSON_parse "[]" = Some (JArr []);
  ToNumber_num z : ToNumber (JNum z) = Int z;
}.

(** ** The disk *)

(** The regular files that exist, with their contents, and the paths on
    which the operating system refuses a write. *)
Record disk := Disk {
  files : gmap string string;
  denied : gset string;
}.

(** [fs.readFile(path, 'utf-8')]; [None] is the error of a missing file. *)
Definition readFile (path : string) (d : disk) : option string :=
  files d !! path.

(** [fs.writeFile(path, data)]: the whole file is replaced; [None] is the
    error. *)
Definition writeFile (path data : string) (d : disk) : option disk :=
  if decide (path ∈ denied d) then None
  else Some {| files := <[path := data]> (files d); denied := denied d |}.

(** ** Requests and responses *)

(** [req.session]: the one flag the servers keep in it. *)
Record session := Session {
  authenticated : bool;
}.

(** A file of a multipart request as multer sees it; [filename] is the
    name multer generates for it. *)
Record upload := Upload {
  mimetype : string;
  size : Z;
  filename : string;
  content : string;
}.

Record request := Request {
  req_session : session;
  (** [req.body], [{}] when the request has none. *)
  body : fields;
  (** [req.params.id], or [req.params.index] in [Legacy]. *)
  params_id : string;
  (** The part named [fond] of a multipart request. *)
  fond : option upload;
}.

Inductive response :=
(** [res.status(s).json(v)] *)
| Json (status : nat) (payload : json)
(** [res.status(s).send(text)] *)
| Send (status : nat) (text : string)
(** [res.sendStatus(s)] *)
| SendStatus (status : nat)
(** [res.redirect(location)] *)
| Redirect (location : string)
(** An exception left the handler synchronously: Express answers 500. *)
| DefaultError
(** An exception left a callback of [fs]: nobody answers. *)
| Uncaught.

Definition status_of (r : response) : option nat :=
  match r with
  | Json s _ | Send s _ | SendStatus s => Some s
  | Redirect _ => Some 302
  | DefaultError => Some 500
  | Uncaught => None
  end.

Definition handler : Type := request → disk → response * disk.

(** multer's disk storage: the accepted file is written under [dest]. *)
Definition store_blob (dest : string) (f : upload) (d : disk) : option disk :=
  writeFile (dest +:+ "/" +:+ filename f) (content f) d.

(** ** [server.js] *)

Module Main.
Section routes.
Context `{!Builtins}.

Definition ARTICLES_FILE : string := "public/articles.json".
Definition FOND_FILE : string := "public/fond.json".
Definition fondsPath : string := "fonds".

(** [function requireLogin(req, res, next)] *)
Definition requireLogin (next : handler) : handler := λ req d,
  if authenticated (req_session req) then next req d
  else (Json 401 (obj1 "error" "Non authentifié"), d).

(** The validation chains of [POST /articles] and [PUT /articles/:id];
    the result lists the fields that failed. *)
Definition isString_notEmpty (v : option json) : bool :=
  match v with
  | Some (JStr s) => negb (String.eqb s "")
  | _ => false
  end.

Definition optional_isString (v : option json) : bool :=
  match v with
  | None | Some (JStr _) => true
  | _ => false
  end.

Definition validationResult (b : fields) : list string :=
  (if isString_notEmpty (b !! "nom") then [] else ["nom"]) ++
  (if isFloat_gt0 (b !! "prix") then [] else ["prix"]) ++
  (if optional_isString (b !! "description") then [] else ["description"]) ++
  (if isString_notEmpty (b !! "categorie") then [] else ["categorie"]).

Definition validated (next : handler) : handler := λ req d,
  match validationResult (body req) with
  | [] => next req d
  | errors => (Json 400 (JObj {[ "errors" := JArr (JStr <$> errors) ]}), d)
  end.

(** [POST /login]; [ADMIN_PASSWORD] is the environment variable, which the
    server refuses to start without. *)
Definition login (ADMIN_PASSWORD : string) (req : request) : response * session :=
  let password := body req !! "password" in
  if negb (truthy password) then
    (Json 400 (obj1 "error" "Mot de passe manquant"), req_session req)
  else if strict_eq_string password ADMIN_PASSWORD then
    (SendStatus 200, {| authenticated := true |})
  else (Json 401 (obj1 "error" "Mot de passe incorrect"), req_session req).

(** [POST /articles], up to [articles.push(nouvelArticle)]: the list in
    memory once [readFile] has resolved. *)
Definition create_load (now : Z) (req : request) (d : disk) : outcome (list json) :=
  let nouvelArticle := JObj (<["id" := JNum now]> (body req)) in
  let articles :=
    match readFile ARTICLES_FILE d ≫= JSON_parse with
    | Some v => v
    | None => JArr []
    end in
  match articles with
  | JArr l => Ok (l ++ [nouvelArticle])
  | _ => TypeError
  end.

(** [POST /articles], from [writeFile] on. *)
Definition create_save (articles : list json) (d : disk) : response * disk :=
  match writeFile ARTICLES_FILE (JSON_stringify (JArr articles)) d with
  | Some d' => (Json 201 (obj1 "message" "Article ajouté"), d')
  | None => (Json 500 (obj1 "error" "Erreur sauvegarde article"), d)
  end.

Definition post_articles (now : Z) : handler :=
  requireLogin (validated (λ req d,
    match create_load now req d with
    | Ok articles => create_save articles d
    | TypeError => (Json 500 (obj1 "error" "Erreur sauvegarde article"), d)
    end)).

(** [PUT /articles/:id] *)
Definition put_articles : handler :=
  requireLogin (validated (λ req d,
    let id := parseInt (params_id req) in
    match readFile ARTICLES_FILE d ≫= JSON_parse with
    | None => (Json 500 (obj1 "error" "Erreur lecture articles"), d)
    | Some (JArr articles) =>
        match findIndex (id_is id) articles with
        | TypeError => (Json 500 (obj1 "error" "Erreur modification article"), d)
        | Ok None => (Json 404 (obj1 "error" "Article introuvable"), d)
        | Ok (Some index) =>
            let articles' :=
              <[index := JObj (<["id" := number_json id]> (body req))]> articles in
            match writeFile ARTICLES_FILE (JSON_stringify (JArr articles')) d with
            | Some d' => (Json 200 (obj1 "message" "Article modifié avec succès"), d')
            | None => (Json 500 (obj1 "error" "Erreur modification article"), d)
            end
        end
    | Some _ => (Json 500 (obj1 "error" "Erreur modification article"), d)
    end)).

(** [DELETE /articles/:id] *)
Definition delete_articles : handler :=
  requireLogin (λ req d,
    let id := parseInt (params_id req) in
    match readFile ARTICLES_FILE d ≫= JSON_parse with
    | None => (Json 500 (obj1 "error" "Erreur lecture articles"), d)
    | Some (JArr articles) =>
        match array_filter (id_is_not id) articles with
        | TypeError => (Json 500 (obj1 "error" "Erreur suppression article"), d)
        | Ok newArticles =>
            if length newArticles =? length articles then
              (Json 404 (obj1 "error" "Article introuvable"), d)
            else
              match writeFile ARTICLES_FILE (JSON_stringify (JArr newArticles)) d with
              | Some d' => (Json 200 (obj1 "message" "Article supprimé avec succès"), d')
              | None => (Json 500 (obj1 "error" "Erreur suppression article"), d)
              end
        end
    | Some _ => (Json 500 (obj1 "error" "Erreur suppression article"), d)
    end).

(** [POST /fond] *)
Definition post_fond : handler :=
  requireLogin (λ req d,
    match writeFile FOND_FILE (JSON_stringify (JObj (body req))) d with
    | Some d' => (Json 200 (obj1 "message" "Fond mis à jour"), d')
    | None => (Json 500 (obj1 "error" "Erreur sauvegarde fond"), d)
    end).

(** [upload.single('fond')] with the 2 MB limit and the filter on the
    declared type; a refusal is an error passed to Express.  The handler
    that follows sees [req.file] only when multer stored the blob. *)
Definition fileFilter (f : upload) : bool :=
  String.eqb (mimetype f) "image/jpeg" ||
  String.eqb (mimetype f) "image/png" ||
  String.eqb (mimetype f) "image/gif".

Definition upload_single (next : handler) : handler := λ req d,
  match fond req with
  | None => next req d
  | Some f =>
      if negb (fileFilter f) then (DefaultError, d)
      else if (2 * 1024 * 1024 <? size f)%Z then (DefaultError, d)
      else match store_blob fondsPath f d with
           | Some d' => next req d'
           | None => (DefaultError, d)
           end
  end.

(** [POST /upload-fond] *)
Definition upload_fond : handler :=
  requireLogin (upload_single (λ req d,
    match fond req with
    | None => (Json 400 (obj1 "error" "Fichier manquant"), d)
    | Some f =>
        let imagePath := "/fonds/" +:+ filename f in
        let document := JObj {[ "background" := JStr ("url(" +:+ imagePath +:+ ")") ]} in
        match writeFile FOND_FILE (JSON_stringify document) d with
        | Some d' =>
            (Json 200 (JObj {[ "message" := JStr "Fond uploadé";
                               "path" := JStr imagePath ]}), d')
        | None => (Json 500 (obj1 "error" "Erreur upload fond"), d)
        end
    end)).

(** *** The read-modify-write cycle of [POST /articles], one await at a time

    The body of the [try] of an accepted request runs in two turns of
    the event loop: the first ends when [readFile] has resolved and the
    article is pushed on the list in memory, the second when [writeFile]
    has resolved.  Other requests run in between. *)
Inductive task :=
| Reading (now : Z) (req : request)
| Writing (articles : list json)
| Answered (r : response).

Definition step (t : task) (d : disk) : task * disk :=
  match t with
  | Reading now req =>
      match create_load now req d with
      | Ok articles => (Writing articles, d)
      | TypeError => (Answered (Json 500 (obj1 "error" "Erreur sauvegarde article")), d)
      end
  | Writing articles =>
      let '(r, d') := create_save articles d in (Answered r, d')
  | Answered r => (t, d)
  end.

(** The requests in flight and the disk they share; [advance i] gives
    the next turn to request [i]. *)
Definition advance (i : nat) (sys : list task * disk) : list task * disk :=
  match sys.1 !! i with
  | Some t => let '(t', d') := step t sys.2 in (<[i := t']> sys.1, d')
  | None => sys
  end.

Definition run (schedule : list nat) (sys : list task * disk) : list task * disk :=
  foldl (λ s i, advance i s) sys schedule.
End routes.
End Main.

(** ** The unnamed server that serves the two read routes itself

    Its login, its gate and its mutating routes are those of [server.js],
    on [articles.json] and [fond.json] next to the script. *)

Module Part000.
Section routes.
Context `{!Builtins}.

Definition ARTICLES_FILE : string := "articles.json".
Definition FOND_FILE : string := "fond.json".

Definition requireLogin (next : handler) : handler := λ req d,
  if authenticated (req_session req) then next req d
  else (Json 401 (obj1 "error" "Non authentifié"), d).

(** [GET /articles.json] *)
Definition get_articles : handler :=
  requireLogin (λ req d,
    match readFile ARTICLES_FILE d with
    | None => (Json 500 (obj1 "error" "Erreur lecture articles"), d)
    | Some data =>
        match JSON_parse (or_brackets data) with
        | Some articles => (Json 200 articles, d)
        | None => (Json 500 (obj1 "error" "Erreur lecture articles"), d)
        end
    end).

(** [GET /fond] *)
Definition get_fond : handler :=
  requireLogin (λ req d,
    match readFile FOND_FILE d ≫= JSON_parse with
    | Some fond => (Json 200 fond, d)
    | None => (Json 200 (obj1 "background" "#f2f2f2"), d)
    end).
End routes.
End Part000.

(** ** [data/server.js] *)

Module Data.
Section routes.
Context `{!Builtins}.

Definition ARTICLES_FILE : string := "articles.json".
Definition FOND_FILE : string := "fond.json".
Definition fondsPath : string := "public/fonds".

(** [function requireLogin(req, res, next)] *)
Definition requireLogin (next : handler) : handler := λ req d,
  if authenticated (req_session req) then next req d
  else (Redirect "/login.html", d).

(** [password === ADMIN_PASSWORD], the variable being possibly unset. *)
Definition strict_eq_env (v : option json) (e : option string) : bool :=
  match e with
  | Some s => strict_eq_string v s
  | None => match v with None => true | Some _ => false end
  end.

(** [POST /login] *)
Definition login (ADMIN_PASSWORD : option string) (req : request) : response * session :=
  let password := body req !! "password" in
  if negb (truthy password) then (Send 400 "Mot de passe manquant", req_session req)
  else if strict_eq_env password ADMIN_PASSWORD then
    (SendStatus 200, {| authenticated := true |})
  else (Send 401 "Mot de passe incorrect !", req_session req).

(** [GET /articles.json] *)
Definition get_articles : handler :=
  requireLogin (λ req d,
    match readFile ARTICLES_FILE d with
    | None => (Send 500 "Erreur lecture articles", d)
    | Some data =>
        match JSON_parse (or_brackets data) with
        | Some articles => (Json 200 articles, d)
        | None => (Uncaught, d)
        end
    end).

(** [POST /articles] *)
Definition post_articles (now : Z) : handler :=
  requireLogin (λ req d,
    let nouvelArticle := JObj (<["id" := JNum now]> (body req)) in
    let articles :=
      match readFile ARTICLES_FILE d with
      | Some data =>
          if String.eqb data "" then JArr []
          else match JSON_parse data with Some v => v | None => JArr [] end
      | None => JArr []
      end in
    match articles with
    | JArr l =>
        match writeFile ARTICLES_FILE (JSON_stringify (JArr (l ++ [nouvelArticle]))) d with
        | Some d' => (Json 201 (obj1 "message" "Article ajouté"), d')
        | None => (Send 500 "Erreur sauvegarde", d)
        end
    | _ => (Uncaught, d)
    end).

(** [PUT /articles/:id], written with the synchronous calls. *)
Definition put_articles : handler :=
  requireLogin (λ req d,
    match readFile ARTICLES_FILE d ≫= JSON_parse with
    | Some (JArr articles) =>
        let id := parseInt (params_id req) in
        match findIndex (id_is id) articles with
        | TypeError => (DefaultError, d)
        | Ok (Some index) =>
            let articles' :=
              <[index := JObj (<["id" := number_json id]> (body req))]> articles in
            match writeFile ARTICLES_FILE (JSON_stringify (JArr articles')) d with
            | Some d' => (Json 200 (obj1 "message" "Article modifié avec succès"), d')
            | None => (DefaultError, d)
            end
        | Ok None => (Json 404 (obj1 "error" "Article introuvable"), d)
        end
    | _ => (DefaultError, d)
    end).

(** [DELETE /articles/:id] *)
Definition delete_articles : handler :=
  requireLogin (λ req d,
    let id := parseInt (params_id req) in
    match readFile ARTICLES_FILE d with
    | None => (Send 500 "Erreur lecture", d)
    | Some data =>
        match JSON_parse data with
        | None => (Send 500 "Fichier articles corrompu", d)
        | Some (JArr articles) =>
            match array_filter (id_is_not id) articles with
            | TypeError => (Uncaught, d)
            | Ok newArticles =>
                if length newArticles =? length articles then
                  (Json 404 (obj1 "error" "Article introuvable"), d)
                else
                  match writeFile ARTICLES_FILE (JSON_stringify (JArr newArticles)) d with
                  | Some d' => (Json 200 (obj1 "message" "Article supprimé avec succès"), d')
                  | None => (Send 500 "Erreur suppression", d)
                  end
            end
        | Some _ => (Uncaught, d)
        end
    end).

(** [GET /fond] *)
Definition get_fond : handler :=
  requireLogin (λ req d,
    match readFile FOND_FILE d with
    | None => (Json 200 (obj1 "background" "#f2f2f2"), d)
    | Some data =>
        match JSON_parse data with
        | Some fond => (Json 200 fond, d)
        | None => (Json 200 (obj1 "background" "#f2f2f2"), d)
        end
    end).

(** [POST /fond] *)
Definition post_fond : handler :=
  requireLogin (λ req d,
    match writeFile FOND_FILE (JSON_stringify (JObj (body req))) d with
    | Some d' => (Json 200 (obj1 "message" "Fond mis à jour"), d')
    | None => (Send 500 "Erreur sauvegarde fond", d)
    end).

(** [upload.single('fond')] of [multer({ dest: fondsPath })]. *)
Definition upload_single (next : handler) : handler := λ req d,
  match fond req with
  | None => next req d
  | Some f =>
      match store_blob fondsPath f d with
      | Some d' => next req d'
      | None => (DefaultError, d)
      end
  end.

(** [POST /upload-fond]; without a file, [req.file.filename] throws. *)
Definition upload_fond : handler :=
  requireLogin (upload_single (λ req d,
    match fond req with
    | None => (DefaultError, d)
    | Some f =>
        let imagePath := "/fonds/" +:+ filename f in
        let document := JObj {[ "background" := JStr ("url(" +:+ imagePath +:+ ")") ]} in
        match writeFile FOND_FILE (JSON_stringify document) d with
        | Some d' =>
            (Json 200 (JObj {[ "message" := JStr "Fond uploadé";
                               "path" := JStr imagePath ]}), d')
        | None => (DefaultError, d)
        end
    end)).
End routes.
End Data.

(** ** [uploads/PIPOU/server.js] *)

Module Legacy.
Section routes.
Context `{!Builtins}.

Definition ARTICLES_FILE : string := "articles.json".
Definition FOND_FILE : string := "fond.json".
Definition fondsPath : string := "public/fonds".
Definition ADMIN_PASSWORD : string := "pipou123".

(** [POST /login] *)
Definition login (req : request) : response * session :=
  let password := body req !! "password" in
  if strict_eq_string password ADMIN_PASSWORD then
    (SendStatus 200, {| authenticated := true |})
  else (SendStatus 401, req_session req).

(** [POST /articles]: the body is stored as it came. *)
Definition post_articles : handler := λ req d,
  let nouvelArticle := JObj (body req) in
  let articles :=
    match readFile ARTICLES_FILE d with
    | Some data =>
        if String.eqb data "" then JArr []
        else match JSON_parse data with Some v => v | None => JArr [] end
    | None => JArr []
    end in
  match articles with
  | JArr l =>
      match writeFile ARTICLES_FILE (JSON_stringify (JArr (l ++ [nouvelArticle]))) d with
      | Some d' => (Json 201 (obj1 "message" "Article ajouté"), d')
      | None => (Send 500 "Erreur sauvegarde", d)
      end
  | _ => (Uncaught, d)
  end.

(** [articles.length]; the length of a string counts the characters of
    the model. *)
Definition js_length (articles : json) : outcome (option json) :=
  match articles with
  | JNull => TypeError
  | JArr l => Ok (Some (JNum (Z.of_nat (length l))))
  | JStr s => Ok (Some (JNum (Z.of_nat (String.length s))))
  | JObj m => Ok (m !! "length")
  | JBool _ | JNum _ => Ok None
  end.

(** [index >= 0 && index < articles.length] *)
Definition in_range (index : number) (articles : json) : outcome bool :=
  match index with
  | NaN => Ok false
  | Int i =>
      if (i <? 0)%Z then Ok false
      else match js_length articles with
           | TypeError => TypeError
           | Ok None => Ok false
           | Ok (Some len) =>
               match ToNumber len with
               | Int n => Ok (i <? n)%Z
               | NaN => Ok false
               end
           end
  end.

(** [articles[index] = value] for an index that passed [in_range]: an
    array takes the element, an object takes a property named after the
    index, a primitive drops the assignment. *)
Definition assign_index (articles : json) (i : Z) (value : json) : json :=
  match articles with
  | JArr l => JArr (<[Z.to_nat i := value]> l)
  | JObj m => JObj (<[pretty i := value]> m)
  | _ => articles
  end.

(** [PUT /articles/:index], written with the synchronous calls. *)
Definition put_articles : handler := λ req d,
  match readFile ARTICLES_FILE d ≫= JSON_parse with
  | None => (DefaultError, d)
  | Some articles =>
      let index := parseInt (params_id req) in
      match in_range index articles, index with
      | TypeError, _ => (DefaultError, d)
      | Ok true, Int i =>
          let articles' := assign_index articles i (JObj (body req)) in
          match writeFile ARTICLES_FILE (JSON_stringify articles') d with
          | Some d' => (Json 200 (obj1 "message" "Article modifié avec succès"), d')
          | None => (DefaultError, d)
          end
      | _, _ => (Json 404 (obj1 "error" "Article introuvable"), d)
      end
  end.

(** [articles.splice(index, 1)] on an array. *)
Definition splice1 (i : nat) (l : list json) : list json := delete i l.

(** [DELETE /articles/:index] *)
Definition delete_articles : handler := λ req d,
  let index := parseInt (params_id req) in
  match readFile ARTICLES_FILE d with
  | None => (Send 500 "Erreur lecture", d)
  | Some data =>
      match JSON_parse data with
      | None => (Send 500 "Fichier articles corrompu", d)
      | Some articles =>
          match in_range index articles, index with
          | TypeError, _ => (Uncaught, d)
          | Ok true, Int i =>
              match articles with
              | JArr l =>
                  match writeFile ARTICLES_FILE
                          (JSON_stringify (JArr (splice1 (Z.to_nat i) l))) d with
                  | Some d' => (Json 200 (obj1 "message" "Article supprimé avec succès"), d')
                  | None => (Send 500 "Erreur suppression", d)
                  end
              | _ => (Uncaught, d)
              end
          | _, _ => (Json 404 (obj1 "error" "Article introuvable"), d)
          end
      end
  end.

(** [POST /fond] *)
Definition post_fond : handler := λ req d,
  match writeFile FOND_FILE (JSON_stringify (JObj (body req))) d with
  | Some d' => (Json 200 (obj1 "message" "Fond mis à jour"), d')
  | None => (Send 500 "Erreur sauvegarde fond", d)
  end.

(** [POST /upload-fond] behind [upload.single('fond')]. *)
Definition upload_fond : handler := λ req d,
  match fond req with
  | None => (DefaultError, d)
  | Some f =>
      match store_blob fondsPath f d with
      | None => (DefaultError, d)
      | Some d1 =>
          let imagePath := "/fonds/" +:+ filename f in
          let document := JObj {[ "background" := JStr ("url(" +:+ imagePath +:+ ")") ]} in
          match writeFile FOND_FILE (JSON_stringify document) d1 with
          | Some d' =>
              (Json 200 (JObj {[ "message" := JStr "Fond uploadé";
                                 "path" := JStr imagePath ]}), d')
          | None => (DefaultError, d1)
          end
      end
  end.
End routes.
End Legacy.

(** ** [server.js]: the session routes and the description route *)

Module MainSession.

(** [POST /logout]: [req.session.destroy] drops the session; the request
    that follows from the same client opens a new one, which carries no
    flag. *)
Definition logout (req : request) : response * session :=
  (Redirect "/login.html", {| authenticated := false |}).

(** [GET /check-session] *)
Definition check_session (req : request) : response :=
  if authenticated (req_session req) then SendStatus 200 else SendStatus 401.

(** The double quote, which the template of the description holds twice. *)
Definition quote : string := String (ascii_of_nat 34) "".

(** The template literal of [GET /generate-description]. *)
Definition description (nom : string) : string :=
  "Le produit " +:+ quote +:+ nom +:+ quote +:+
  " allie style, originalité et confort. Un indispensable pour affirmer ton look.".

(** [typeof nom !== 'string'] *)
Definition not_a_string (nom : option json) : bool :=
  match nom with
  | Some (JStr _) => false
  | _ => true
  end.

(** [GET /generate-description]; [nom] is [req.query.nom], which the query
    parser leaves undefined, a string, an array or an object. *)
Definition generate_description (nom : option json) : handler :=
  Main.requireLogin (λ req d,
    if negb (truthy nom) || not_a_string nom then
      (Json 400 (obj1 "error" "Nom du produit requis"), d)
    else
      match nom with
      | Some (JStr n) => (Json 200 (obj1 "description" (description n)), d)
      | _ => (Json 400 (obj1 "error" "Nom du produit requis"), d)
      end).

End MainSession.

(** ** The unnamed server with a single [try] around each route

    Its gate, its validation chains and its multer configuration are those
    of [server.js], on the same files; every failure is reported as
    [Erreur serveur]. *)

Module Part001.
Section routes.
Context `{!Builtins}.

Definition ARTICLES_FILE : string := "public/articles.json".
Definition FOND_FILE : string := "public/fond.json".

(** [POST /articles]; the article is [{ ...req.body, id: Date.now() }]. *)
Definition post_articles (now : Z) : handler :=
  Main.requireLogin (Main.validated (λ req d,
    let nouvelArticle := JObj (<["id" := JNum now]> (body req)) in
    let articles :=
      match readFile ARTICLES_FILE d ≫= JSON_parse with
      | Some v => v
      | None => JArr []
      end in
    match articles with
    | JArr l =>
        match writeFile ARTICLES_FILE (JSON_stringify (JArr (l ++ [nouvelArticle]))) d with
        | Some d' => (Json 201 (obj1 "message" "Article ajouté"), d')
        | None => (Json 500 (obj1 "error" "Erreur serveur"), d)
        end
    | _ => (Json 500 (obj1 "error" "Erreur serveur"), d)
    end)).

(** [PUT /articles/:id] *)
Definition put_articles : handler :=
  Main.requireLogin (Main.validated (λ req d,
    let id := parseInt (params_id req) in
    match readFile ARTICLES_FILE d ≫= JSON_parse with
    | Some (JArr articles) =>
        match findIndex (id_is id) articles with
        | TypeError => (Json 500 (obj1 "error" "Erreur serveur"), d)
        | Ok None => (Json 404 (obj1 "error" "Article introuvable"), d)
        | Ok (Some index) =>
            let articles' :=
              <[index := JObj (<["id" := number_json id]> (body req))]> articles in
            match writeFile ARTICLES_FILE (JSON_stringify (JArr articles')) d with
            | Some d' => (Json 200 (obj1 "message" "Article modifié"), d')
            | None => (Json 500 (obj1 "error" "Erreur serveur"), d)
            end
        end
    | _ => (Json 500 (obj1 "error" "Erreur serveur"), d)
    end)).

(** [DELETE /articles/:id] *)
Definition delete_articles : handler :=
  Main.requireLogin (λ req d,
    let id := parseInt (params_id req) in
    match readFile ARTICLES_FILE d ≫= JSON_parse with
    | Some (JArr articles) =>
        match array_filter (id_is_not id) articles with
        | TypeError => (Json 500 (obj1 "error" "Erreur serveur"), d)
        | Ok newArticles =>
            if length newArticles =? length articles then
              (Json 404 (obj1 "error" "Article introuvable"), d)
            else
              match writeFile ARTICLES_FILE (JSON_stringify (JArr newArticles)) d with
              | Some d' => (Json 200 (obj1 "message" "Article supprimé"), d')
              | None => (Json 500 (obj1 "error" "Erreur serveur"), d)
              end
        end
    | _ => (Json 500 (obj1 "error" "Erreur serveur"), d)
    end).

(** [POST /fond] *)
Definition post_fond : handler :=
  Main.requireLogin (λ req d,
    match writeFile FOND_FILE (JSON_stringify (JObj (body req))) d with
    | Some d' => (Json 200 (obj1 "message" "Fond mis à jour"), d')
    | None => (Json 500 (obj1 "error" "Erreur serveur"), d)
    end).

(** [POST /upload-fond] *)
Definition upload_fond : handler :=
  Main.requireLogin (Main.upload_single (λ req d,
    match fond req with
    | None => (Json 400 (obj1 "error" "Fichier manquant"), d)
    | Some f =>
        let imagePath := "/fonds/" +:+ filename f in
        let document := JObj {[ "background" := JStr ("url(" +:+ imagePath +:+ ")") ]} in
        match writeFile FOND_FILE (JSON_stringify document) d with
        | Some d' =>
            (Json 200 (JObj {[ "message" := JStr "Fond uploadé";
                               "path" := JStr imagePath ]}), d')
        | None => (Json 500 (obj1 "error" "Erreur serveur"), d)
        end
    end)).
End routes.
End Part001.

(** ** Vocabulary of the properties *)

(** A record carries the id [id]. *)
Definition has_id (id : Z) (r : fields) : Prop := r !! "id" = Some (JNum id).

#[global] Instance has_id_dec id r : Decision (has_id id r).
Proof.
  unfold has_id. destruct (r !! "id") as [[| |z| | |]|]; try (right; congruence).
  destruct (decide (z = id)) as [->|]; [left|right]; congruence.
Defined.

(** The id of each element of a stored list, [None] where there is none. *)
Definition id_of (a : json) : option json :=
  match a with
  | JObj m => m !! "id"
  | _ => None
  end.


(** The record an update leaves: the attributes sent, under the id. *)
Definition with_id (id : Z) (attrs : fields) : fields := <["id" := JNum id]> attrs.

(** All the ways of interleaving the turns of two requests. *)
Fixpoint merges (xs ys : list nat) : list (list nat) :=
  match xs with
  | [] => [ys]
  | x :: xs' =>
      (fix with_ys (ys : list nat) : list (list nat) :=
         match ys with
         | [] => [x :: xs']
         | y :: ys' => ((x ::.) <$> merges xs' (y :: ys')) ++ ((y ::.) <$> with_ys ys')
         end) ys
  end.

(** The answers the three servers share. *)
Definition not_found : response := Json 404 (obj1 "error" "Article introuvable").
Definition modified : response := Json 200 (obj1 "message" "Article modifié avec succès").
Definition deleted : response := Json 200 (obj1 "message" "Article supprimé avec succès").
Definition created : response := Json 201 (obj1 "message" "Article ajouté").
Definition default_fond : json := obj1 "background" "#f2f2f2".

(** The answer reports a failure of the request. *)
Definition refused (r : response) : Prop :=
  status_of r ∈ [Some 400; Some 401; Some 404; Some 500].

(** The answer is not one of success: a failure status, a redirect, or no
    answer at all. *)
Definition failed (r : response) : Prop :=
  status_of r ∉ [Some 200; Some 201].

(** The file [path] holds the list [l]. *)
Definition holds `{!Builtins} (path : string) (l : list json) (d : disk) : Prop :=
  readFile path d ≫= JSON_parse = Some (JArr l).

(** The disk after [writeFile] has replaced [path] by the text of [v]. *)
Definition written `{!Builtins} (path : string) (v : json) (d : disk) : disk :=
  {| files := <[path := JSON_stringify v]> (files d); denied := denied d |}.




(** The request [req] sent on the session [s]. *)
Definition on_session (s : session) (req : request) : request :=
  {| req_session := s; body := body req; params_id := params_id req; fond := fond req |}.

(** From [d] to [d'] no file outside [paths] has changed, and no
    permission. *)
Definition within (paths : list string) (d d' : disk) : Prop :=
  denied d' = denied d ∧ ∀ p, p ∉ paths → readFile p d' = readFile p d.

(** The handler [h] writes to the files [paths req] at most. *)
Definition writes_within (paths : request → list string) (h : handler) : Prop :=
  ∀ req d, within (paths req) d (h req d).2.

(** The files an upload may write: the setting document and the blob. *)
Definition upload_paths (dest fond_file : string) (req : request) : list string :=
  fond_file :: match fond req with
               | Some f => [dest +:+ "/" +:+ filename f]
               | None => []
               end.

(** [i] is the position of the first record of [rs] that carries [id]. *)
Definition first_with_id (id : Z) (rs : list fields) (i : nat) : Prop :=
  (∃ r, rs !! i = Some r ∧ has_id id r)
  ∧ ∀ j r', j < i → rs !! j = Some r' → ¬ has_id id r'.

(** What update by id does on the stored records [rs]: not found when no
    record carries [id]; otherwise the first record that carries it becomes
    the attributes sent under that id, nothing of the old record staying,
    the whole list is written to [file], and the next read of [file] finds
    that list. *)
Definition updates_by_id `{!Builtins} (file : string) (put : handler)
    (rs : list fields) (id : Z) (req : request) (d : disk) : Prop :=
  (Forall (λ r, ¬ has_id id r) rs → put req d = (not_found, d))
  ∧ ∀ i, first_with_id id rs i →
      let rs' := <[i := with_id id (body req)]> rs in
      ∃ d', put req d = (modified, d')
            ∧ writeFile file (JSON_stringify (JArr (JObj <$> rs'))) d = Some d'
            ∧ readFile file d' ≫= JSON_parse = Some (JArr (JObj <$> rs'))
            ∧ ∃ r', rs' !! i = Some r'
                    ∧ r' !! "id" = Some (JNum id)
                    ∧ ∀ k, k ≠ "id" → r' !! k = body req !! k.

(** What update by position does: not found when the position is not one
    of the list; otherwise the record there becomes the body as it was
    sent, with no id but the one the body may have. *)
Definition updates_by_position `{!Builtins} (file : string) (put : handler)
    (rs : list fields) (index : Z) (req : request) (d : disk) : Prop :=
  ((index < 0 ∨ Z.of_nat (length rs) ≤ index)%Z → put req d = (not_found, d))
  ∧ ((0 ≤ index < Z.of_nat (length rs))%Z →
     let rs' := <[Z.to_nat index := body req]> rs in
     ∃ d', put req d = (modified, d')
           ∧ writeFile file (JSON_stringify (JArr (JObj <$> rs'))) d = Some d'
           ∧ readFile file d' ≫= JSON_parse = Some (JArr (JObj <$> rs'))
           ∧ rs' !! Z.to_nat index = Some (body req)).

(** What delete by id does on the stored records [rs]: not found, with
    nothing written, when the filter keeps as many records as there were;
    otherwise the records that do not carry [id] are written to [file], the
    next read of [file] finds them, and the same request sent again is
    answered not found with nothing written. *)
Definition deletes_by_id `{!Builtins} (file : string) (del : handler)
    (rs : list fields) (id : Z) (req : request) (d : disk) : Prop :=
  let kept := filter (λ r, ¬ has_id id r) rs in
  (length kept = length rs → del req d = (not_found, d))
  ∧ (length kept ≠ length rs →
     ∃ d', del req d = (deleted, d')
           ∧ writeFile file (JSON_stringify (JArr (JObj <$> kept))) d = Some d'
           ∧ readFile file d' ≫= JSON_parse = Some (JArr (JObj <$> kept))
           ∧ del req d' = (not_found, d')).

(** The collection at rest: the elements of the list the file holds, and
    nothing when the file is missing, does not parse or holds no list. *)
Definition collection `{!Builtins} (file : string) (d : disk) : list json :=
  match readFile file d ≫= JSON_parse with
  | Some (JArr l) => l
  | _ => []
  end.

(** The file holds a list whenever it parses: the state in which
    [POST /articles] can push. *)
Definition holds_a_list `{!Builtins} (file : string) (d : disk) : Prop :=
  ∀ v, readFile file d ≫= JSON_parse = Some v → ∃ l, v = JArr l.

(** The article [POST /articles] pushes at time [now]. *)
Definition new_article (now : Z) (req : request) : json :=
  JObj (with_id now (body req)).


(** A schedule of two requests is serial when one of them takes both its
    turns before the other takes its first. *)
Definition serial (schedule : list nat) : bool :=
  bool_decide (schedule = [0; 0; 1; 1] ∨ schedule = [1; 1; 0; 0]).

(** The disk after [writeFile] has replaced the articles file by [l]. *)
Definition write_list `{!Builtins} (l : list json) (d : disk) : disk :=
  {| files := <[Main.ARTICLES_FILE := JSON_stringify (JArr l)]> (files d);
     denied := denied d |}.

(** ** A reference implementation of the built-ins

    The class has a model: a codec that writes a value as the binary
    digits of the code of its tree and reads it back, next to a decimal
    [parseInt].  The examples run on it. *)

Module Reference.

Definition leaf : Type := bool + Z + string.

Fixpoint to_tree (v : json) : gen_tree leaf :=
  match v with
  | JNull => GenNode 0 []
  | JBool b => GenLeaf (inl (inl b))
  | JNum z => GenLeaf (inl (inr z))
  | JStr s => GenLeaf (inr s)
  | JArr l => GenNode 1 (to_tree <$> l)
  | JObj m =>
      GenNode 2 ((λ kt, GenNode 3 [GenLeaf (inr kt.1); kt.2])
                   <$> map_to_list (to_tree <$> m))
  end.

Definition entry (of_tree : gen_tree leaf → json) (e : gen_tree leaf)
  : option (string * json) :=
  match e with
  | GenNode 3 [GenLeaf (inr k); t] => Some (k, of_tree t)
  | _ => None
  end.

Fixpoint of_tree (t : gen_tree leaf) : json :=
  match t with
  | GenLeaf (inl (inl b)) => JBool b
  | GenLeaf (inl (inr z)) => JNum z
  | GenLeaf (inr s) => JStr s
  | GenNode 1 ts => JArr (of_tree <$> ts)
  | GenNode 2 ts => JObj (list_to_map (omap (entry of_tree) ts))
  | GenNode _ _ => JNull
  end.

(** The nesting depth of a value, the measure of the induction below. *)
Fixpoint depth (v : json) : nat :=
  match v with
  | JArr l => S (max_list (depth <$> l))
  | JObj m => S (map_fold (λ _ n acc, n `max` acc) 0 (depth <$> m))
  | _ => 0
  end.

Fixpoint bits (p : positive) : string :=
  match p with
  | xH => ""
  | xO p => String "0"%char (bits p)
  | xI p => String "1"%char (bits p)
  end.

Fixpoint of_bits (s : string) : option positive :=
  match s with
  | "" => Some xH
  | String "0"%char s => xO <$> of_bits s
  | String "1"%char s => xI <$> of_bits s
  | _ => None
  end.

Definition stringify (v : json) : string := bits (encode (to_tree v)).

Definition parse (s : string) : option json :=
  if decide (s = "[]") then Some (JArr [])
  else of_tree <$> (of_bits s ≫= decode).

(** Decimal digits after an optional minus sign. *)
Definition digit (c : ascii) : option Z :=
  let n := nat_of_ascii c in
  if (48 <=? n) && (n <=? 57) then Some (Z.of_nat (n - 48)) else None.

Fixpoint digits (acc : option Z) (s : string) : option Z :=
  match s with
  | String c s' =>
      match digit c with
      | Some k => digits (Some (10 * default 0%Z acc + k)%Z) s'
      | None => acc
      end
  | "" => acc
  end.

Definition parse_int (s : string) : number :=
  match s with
  | String "-"%char s' =>
      match digits None s' with Some z => Int (- z) | None => NaN end
  | _ => match digits None s with Some z => Int z | None => NaN end
  end.

Definition to_number (v : json) : number :=
  match v with
  | JNum z => Int z
  | JNull => Int 0
  | JBool b => Int (if b then 1 else 0)
  | JStr s => if String.eqb s "" then Int 0 else parse_int s
  | _ => NaN
  end.

Definition positive_number (v : option json) : bool :=
  match v with
  | Some (JNum z) => (0 <? z)%Z
  | Some (JStr s) => match parse_int s with Int z => (0 <? z)%Z | NaN => false end
  | _ => false
  end.

End Reference.

(** ** Requests and disks of the examples *)

Definition anonymous : session := {| authenticated := false |}.
Definition admin : session := {| authenticated := true |}.

Definition tee : fields :=
  {[ "nom" := JStr "Tee"; "prix" := JNum 10; "categorie" := JStr "Shirts" ]}.
Definition tee_v2 : fields :=
  {[ "nom" := JStr "Tee v2"; "prix" := JNum 12; "categorie" := JStr "Shirts" ]}.

Definition request_of (s : session) (b : fields) (id : string) : request :=
  {| req_session := s; body := b; params_id := id; fond := None |}.

(** A small image as multer hands it over, and the request that uploads it. *)
Definition png : upload :=
  {| mimetype := "image/png"; size := 3; filename := "a1b2"; content := "PNG" |}.

Definition upload_request : request :=
  {| req_session := admin; body := ∅; params_id := ""; fond := Some png |}.

Definition empty_disk : disk := {| files := ∅; denied := ∅ |}.

(** The disk whose only file is [path], holding [data]. *)
Definition disk_with (path data : string) : disk :=
  {| files := {[ path := data ]}; denied := ∅ |}.

(** ** Facts about the array methods and the disk *)

Section facts.
Context `{!Builtins}.

Lemma strict_eq_number_has_id id (r : fields) :
  strict_eq_number (r !! "id") (Int id) = bool_decide (has_id id r).
Proof.
  case_bool_decide as Hr; unfold has_id in Hr.
  - rewrite Hr. cbn. apply Z.eqb_refl.
  - destruct (r !! "id") as [[| |z| | |]|]; try done.
    cbn. apply Z.eqb_neq. congruence.
Qed.

Lemma strict_eq_number_NaN v : strict_eq_number v NaN = false.
Proof. by destruct v as [[]|]. Qed.

Lemma id_is_record id (r : fields) :
  id_is (Int id) (JObj r) = Ok (bool_decide (has_id id r)).
Proof. unfold id_is. cbn. by rewrite strict_eq_number_has_id. Qed.

Lemma id_is_not_record id (r : fields) :
  id_is_not (Int id) (JObj r) = Ok (negb (bool_decide (has_id id r))).
Proof. unfold id_is_not. cbn. by rewrite strict_eq_number_has_id. Qed.

Lemma id_is_NaN a : id_is NaN a = Ok false ∨ id_is NaN a = TypeError.
Proof.
  unfold id_is. destruct (prop_id a); [left|by right].
  by rewrite strict_eq_number_NaN.
Qed.

Lemma id_is_not_NaN a : id_is_not NaN a = Ok true ∨ id_is_not NaN a = TypeError.
Proof.
  unfold id_is_not. destruct (prop_id a); [left|by right].
  by rewrite strict_eq_number_NaN.
Qed.

Lemma findIndex_cons p a l :
  findIndex p (a :: l) =
  match p a with
  | TypeError => TypeError
  | Ok true => Ok (Some 0)
  | Ok false => match findIndex p l with Ok (Some i) => Ok (Some (S i)) | r => r end
  end.
Proof. done. Qed.

Lemma array_filter_cons p a l :
  array_filter p (a :: l) =
  match p a with
  | TypeError => TypeError
  | Ok keep =>
      match array_filter p l with
      | Ok r => Ok (if keep then a :: r else r)
      | TypeError => TypeError
      end
  end.
Proof. done. Qed.

Lemma findIndex_no_match id (rs : list fields) :
  Forall (λ r, ¬ has_id id r) rs →
  findIndex (id_is (Int id)) (JObj <$> rs) = Ok None.
Proof.
  induction 1 as [|r rs Hr _ IH]; [done|].
  rewrite fmap_cons. rewrite findIndex_cons. rewrite id_is_record.
  rewrite bool_decide_eq_false_2 by done. by rewrite IH.
Qed.

Lemma findIndex_first_match id (rs : list fields) i r :
  rs !! i = Some r → has_id id r →
  (∀ j r', j < i → rs !! j = Some r' → ¬ has_id id r') →
  findIndex (id_is (Int id)) (JObj <$> rs) = Ok (Some i).
Proof.
  revert i. induction rs as [|r0 rs IH]; intros i Hi Hr Hbefore; [done|].
  rewrite fmap_cons. rewrite findIndex_cons. rewrite id_is_record.
  destruct i as [|i]; simplify_eq/=.
  - by rewrite bool_decide_eq_true_2.
  - rewrite bool_decide_eq_false_2 by (apply (Hbefore 0); [lia|done]).
    rewrite (IH i); [done..|].
    intros j r' Hj Hr'. apply (Hbefore (S j)); [lia|done].
Qed.

(** What [findIndex] returns is the position of an element that passes. *)
Lemma findIndex_Some p l i :
  findIndex p l = Ok (Some i) → ∃ a, l !! i = Some a ∧ p a = Ok true.
Proof.
  revert i. induction l as [|a l IH]; intros i; [done|].
  rewrite findIndex_cons. destruct (p a) as [[]|] eqn:Hp; [| |done].
  - intros [= <-]. eauto.
  - destruct (findIndex p l) as [[j|]|]; [|done..].
    intros [= <-]. by apply IH.
Qed.

Lemma findIndex_NaN l :
  findIndex (id_is NaN) l = Ok None ∨ findIndex (id_is NaN) l = TypeError.
Proof.
  induction l as [|a l IH]; [by left|].
  rewrite findIndex_cons. destruct (id_is_NaN a) as [->| ->]; [|by right].
  destruct IH as [->| ->]; [by left|by right].
Qed.

Lemma array_filter_records id (rs : list fields) :
  array_filter (id_is_not (Int id)) (JObj <$> rs)
  = Ok (JObj <$> filter (λ r, ¬ has_id id r) rs).
Proof.
  induction rs as [|r rs IH]; [done|].
  rewrite fmap_cons. rewrite array_filter_cons, IH, id_is_not_record.
  destruct (decide (has_id id r)) as [Hr|Hr].
  - rewrite bool_decide_eq_true_2, filter_cons_False by tauto. done.
  - rewrite bool_decide_eq_false_2, filter_cons_True by done. done.
Qed.

Lemma array_filter_NaN l r : array_filter (id_is_not NaN) l = Ok r → r = l.
Proof.
  revert r. induction l as [|a l IH]; intros r; [cbn; congruence|]. rewrite array_filter_cons.
  destruct (id_is_not_NaN a) as [->| ->]; [|done].
  destruct (array_filter (id_is_not NaN) l); [|done].
  intros [= <-]. f_equal. by apply IH.
Qed.

Lemma array_filter_sublist p l r : array_filter p l = Ok r → r `sublist_of` l.
Proof.
  revert r. induction l as [|a l IH]; intros r.
  - by intros [= <-].
  - rewrite array_filter_cons. destruct (p a) as [keep|]; [|done].
    destruct (array_filter p l) as [r'|]; [|done].
    intros [= <-]. destruct keep; [apply sublist_skip|apply sublist_cons]; by apply IH.
Qed.

Lemma writeFile_allowed path data d :
  path ∉ denied d →
  writeFile path data d = Some {| files := <[path := data]> (files d); denied := denied d |}.
Proof. intros. unfold writeFile. by rewrite decide_False. Qed.

Lemma readFile_writeFile path data d d' :
  writeFile path data d = Some d' → readFile path d' = Some data.
Proof.
  unfold writeFile, readFile. case_decide; [done|].
  intros [= <-]. apply lookup_insert_eq.
Qed.

End facts.

(** ** The reference built-ins satisfy the laws *)

Lemma map_fold_max_le (m : gmap string nat) k n :
  m !! k = Some n → n ≤ map_fold (λ _ n acc, n `max` acc) 0 m.
Proof.
  induction m as [|i x m Hi IH] using map_ind; [done|].
  rewrite map_fold_insert_L; [|intros; lia|done].
  intros Hl. destruct (decide (i = k)) as [->|Hne].
  - rewrite lookup_insert_eq in Hl. injection Hl as ->. lia.
  - rewrite lookup_insert_ne in Hl by done. specialize (IH Hl). lia.
Qed.

(** Induction on a value, with the property at hand for the elements of
    an array and for the properties of an object. *)
Lemma json_nested_ind (P : json → Prop) :
  P JNull → (∀ b, P (JBool b)) → (∀ z, P (JNum z)) → (∀ s, P (JStr s)) →
  (∀ l, Forall P l → P (JArr l)) →
  (∀ m, map_Forall (λ _, P) m → P (JObj m)) →
  ∀ v, P v.
Proof.
  intros Hnull Hbool Hnum Hstr Harr Hobj v.
  remember (Reference.depth v) as n eqn:Hn. revert v Hn.
  induction n as [n IH] using lt_wf_ind. intros [] Hn; auto.
  - apply Harr, list.Forall_forall. intros x Hx. apply (IH (Reference.depth x)); [|done].
    subst n. simpl. apply Nat.lt_succ_r, max_list_elem_of_le.
    apply list_elem_of_fmap. eauto.
  - apply Hobj. intros k x Hk. apply (IH (Reference.depth x)); [|done].
    subst n. simpl. apply Nat.lt_succ_r, (map_fold_max_le _ k).
    by rewrite lookup_fmap, Hk.
Qed.

Lemma omap_entry (L : list (string * gen_tree Reference.leaf)) :
  omap (Reference.entry Reference.of_tree)
    ((λ kt, GenNode 3 [GenLeaf (inr kt.1); kt.2]) <$> L)
  = prod_map id Reference.of_tree <$> L.
Proof. induction L as [|[k t] L IH]; [done|]. cbn. by rewrite IH. Qed.

Lemma of_to_tree v : Reference.of_tree (Reference.to_tree v) = v.
Proof.
  induction v as [| | | |l IH|m IH] using json_nested_ind; try done.
  - cbn. f_equal. induction IH as [|x l Hx _ IHl]; [done|]. cbn. by f_equal.
  - cbn. f_equal. rewrite omap_entry. apply map_eq. intros k.
    apply option_eq. intros x.
    rewrite <-elem_of_list_to_map.
    + rewrite list_elem_of_fmap. split.
      * intros ([k' t] & [= -> ->] & Hkt).
        apply elem_of_map_to_list in Hkt. rewrite lookup_fmap in Hkt.
        destruct (m !! k') as [y|] eqn:Hy; simplify_eq/=.
        f_equal. symmetry. apply (IH _ _ Hy).
      * intros Hk. exists (k, Reference.to_tree x). split.
        -- cbn. f_equal. symmetry. apply (IH _ _ Hk).
        -- apply elem_of_map_to_list. by rewrite lookup_fmap, Hk.
    + rewrite <-list_fmap_compose.
      rewrite (list_fmap_ext _ fst (map_to_list (Reference.to_tree <$> m)))
        by (by intros ? []).
      apply NoDup_fst_map_to_list.
Qed.

Lemma of_bits_bits p : Reference.of_bits (Reference.bits p) = Some p.
Proof. induction p; cbn; by rewrite ?IHp. Qed.

Lemma bits_not_brackets p : Reference.bits p ≠ "[]".
Proof. by destruct p. Qed.

Lemma reference_parse_stringify v : Reference.parse (Reference.stringify v) = Some v.
Proof.
  unfold Reference.parse, Reference.stringify.
  rewrite decide_False by apply bits_not_brackets.
  rewrite of_bits_bits. cbn. rewrite decode_encode. cbn. by rewrite of_to_tree.
Qed.

#[global] Instance reference_builtins : Builtins := {|
  JSON_parse := Reference.parse;
  JSON_stringify := Reference.stringify;
  parseInt := Reference.parse_int;
  ToNumber := Reference.to_number;
  isFloat_gt0 := Reference.positive_number;
  JSON_parse_stringify := reference_parse_stringify;
  JSON_parse_brackets := eq_refl;
  ToNumber_num := λ _, eq_refl;
|}.

(** ** The session gate *)

Section gate.
Context `{!Builtins}.

Lemma strict_eq_string_true v s : strict_eq_string v s = true ↔ v = Some (JStr s).
Proof.
  destruct v as [[| | |s'| |]|]; simpl; try (split; [done|congruence]).
  rewrite String.eqb_eq. split; congruence.
Qed.

(** The legacy server stores whatever an anonymous client posts. *)
Lemma Legacy_post_articles_open req d :
  readFile Legacy.ARTICLES_FILE d = None → Legacy.ARTICLES_FILE ∉ denied d →
  ∃ d', Legacy.post_articles req d = (created, d')
        ∧ readFile Legacy.ARTICLES_FILE d' = Some (JSON_stringify (JArr [JObj (body req)])).
Proof.
  intros Hread Hw. unfold Legacy.post_articles. rewrite Hread. cbn [app].
  rewrite writeFile_allowed by done. eexists. split; [done|].
  apply lookup_insert_eq.
Qed.

End gate.

(** C1 (counterexample).  An anonymous [POST /articles] on a disk without
    [articles.json]: in [uploads/PIPOU/server.js] it is answered 201 and the
    file is created with the posted article in it; in [data/server.js] it is
    turned away with a redirect to the login page, which is not a 401. *)
Lemma C1_counterexample :
  let req := request_of anonymous tee "" in
  authenticated (req_session req) = false
  ∧ readFile Legacy.ARTICLES_FILE empty_disk = None
  ∧ (Legacy.post_articles req empty_disk).1 = created
  ∧ readFile Legacy.ARTICLES_FILE (Legacy.post_articles req empty_disk).2
    = Some (JSON_stringify (JArr [JObj tee]))
  ∧ Data.post_articles 1 req empty_disk = (Redirect "/login.html", empty_disk).
Proof.
  cbv zeta. split; [done|]. split; [done|].
  destruct (Legacy_post_articles_open (request_of anonymous tee "") empty_disk)
    as (d' & -> & Hd'); [done|set_solver|].
  done.
Qed.

(** C1 (amended).  On a session whose [authenticated] flag is not true,
    every mutating route of [server.js] (create, update and delete of an
    article, write of the setting document, upload of a blob) is answered
    401 [Non authentifié] and leaves the disk as it was; the same routes of
    [data/server.js] are turned away to [/login.html], the disk as it was. *)
Theorem C1_gate `{!Builtins} (now : Z) (req : request) (d : disk) :
  authenticated (req_session req) = false →
  let unauthenticated := (Json 401 (obj1 "error" "Non authentifié"), d) in
  let to_login := (Redirect "/login.html", d) in
  (Main.post_articles now req d = unauthenticated
   ∧ Main.put_articles req d = unauthenticated
   ∧ Main.delete_articles req d = unauthenticated
   ∧ Main.post_fond req d = unauthenticated
   ∧ Main.upload_fond req d = unauthenticated)
  ∧ (Data.post_articles now req d = to_login
     ∧ Data.put_articles req d = to_login
     ∧ Data.delete_articles req d = to_login
     ∧ Data.post_fond req d = to_login
     ∧ Data.upload_fond req d = to_login).
Proof.
  intros Hs. cbv zeta.
  unfold Main.post_articles, Main.put_articles, Main.delete_articles, Main.post_fond,
    Main.upload_fond, Main.requireLogin, Data.post_articles, Data.put_articles,
    Data.delete_articles, Data.post_fond, Data.upload_fond, Data.requireLogin.
  rewrite Hs. repeat split.
Qed.

(** An anonymous delete on a disk that holds the empty list. *)
Lemma C1_gate_witness :
  Main.delete_articles (request_of anonymous ∅ "7") (disk_with Main.ARTICLES_FILE "[]")
  = (Json 401 (obj1 "error" "Non authentifié"), disk_with Main.ARTICLES_FILE "[]").
Proof.
  exact (proj1 (proj2 (proj2 (proj1
    (C1_gate 0 (request_of anonymous ∅ "7") (disk_with Main.ARTICLES_FILE "[]") eq_refl))))).
Defined.

(** ** Login *)

(** C9 (counterexample).  In [uploads/PIPOU/server.js] a login request
    without a password field is answered 401, not 400; and in [server.js] a
    password that is present, empty and not the secret is answered 400, not
    401. *)
Lemma C9_counterexample :
  body (request_of anonymous ∅ "") !! "password" = None
  ∧ Legacy.login (request_of anonymous ∅ "") = (SendStatus 401, anonymous)
  ∧ body (request_of anonymous {[ "password" := JStr "" ]} "") !! "password"
    = Some (JStr "")
  ∧ Main.login "s3cret" (request_of anonymous {[ "password" := JStr "" ]} "")
    = (Json 400 (obj1 "error" "Mot de passe manquant"), anonymous).
Proof. done. Qed.

(** C9 (amended).  [POST /login] of [server.js] and of [data/server.js]:
    a password that is missing, or falsy like the empty string, is answered
    400 and the session is left as it was; a password equal to the
    configured secret is answered 200 and the session is marked
    authenticated; any other password is answered 401 and the session is
    left as it was.  [uploads/PIPOU/server.js] has no answer 400: the secret
    is answered 200 with the session marked authenticated, anything else, a
    missing password included, is answered 401 with the session left as it
    was. *)
Theorem C9_login (req : request) :
  let password := body req !! "password" in
  (∀ secret : string,
     (truthy password = false →
      Main.login secret req
      = (Json 400 (obj1 "error" "Mot de passe manquant"), req_session req))
     ∧ (truthy password = true → password = Some (JStr secret) →
        Main.login secret req = (SendStatus 200, {| authenticated := true |}))
     ∧ (truthy password = true → password ≠ Some (JStr secret) →
        Main.login secret req
        = (Json 401 (obj1 "error" "Mot de passe incorrect"), req_session req)))
  ∧ (∀ secret : option string,
       (truthy password = false →
        Data.login secret req = (Send 400 "Mot de passe manquant", req_session req))
       ∧ (truthy password = true → JStr <$> secret = password →
          Data.login secret req = (SendStatus 200, {| authenticated := true |}))
       ∧ (truthy password = true → JStr <$> secret ≠ password →
          Data.login secret req = (Send 401 "Mot de passe incorrect !", req_session req)))
  ∧ (password = Some (JStr Legacy.ADMIN_PASSWORD) →
     Legacy.login req = (SendStatus 200, {| authenticated := true |}))
  ∧ (password ≠ Some (JStr Legacy.ADMIN_PASSWORD) →
     Legacy.login req = (SendStatus 401, req_session req)).
Proof.
  cbv zeta. split; [|split; [|split]].
  - intros secret. unfold Main.login. repeat split.
    + by intros ->.
    + intros -> Hp. by rewrite (proj2 (strict_eq_string_true _ _) Hp).
    + intros -> Hp. destruct (strict_eq_string _ secret) eqn:He; [|done].
      by apply strict_eq_string_true in He.
  - intros secret. unfold Data.login, Data.strict_eq_env. repeat split.
    + by intros ->.
    + intros -> <-. destruct secret as [s|]; [|done]. cbn.
      by rewrite String.eqb_refl.
    + intros Ht Hp. rewrite Ht. cbn [negb].
      destruct secret as [s|].
      * destruct (strict_eq_string _ s) eqn:He; [|done].
        apply strict_eq_string_true in He. by rewrite He in Hp.
      * by destruct (body req !! "password").
  - intros Hp. unfold Legacy.login.
    by rewrite (proj2 (strict_eq_string_true _ _) Hp).
  - intros Hp. unfold Legacy.login.
    destruct (strict_eq_string _ Legacy.ADMIN_PASSWORD) eqn:He; [|done].
    by apply strict_eq_string_true in He.
Qed.

(** The three answers, on the secret [s3cret]. *)
Lemma C9_login_witness :
  Main.login "s3cret" (request_of anonymous {[ "password" := JStr "s3cret" ]} "")
  = (SendStatus 200, admin)
  ∧ Main.login "s3cret" (request_of anonymous {[ "password" := JStr "" ]} "")
    = (Json 400 (obj1 "error" "Mot de passe manquant"), anonymous)
  ∧ Data.login (Some "s3cret") (request_of anonymous {[ "password" := JStr "guess" ]} "")
    = (Send 401 "Mot de passe incorrect !", anonymous).
Proof.
  split; [|split].
  - exact (proj1 (proj2 (proj1
      (C9_login (request_of anonymous {[ "password" := JStr "s3cret" ]} "")) "s3cret"))
      eq_refl eq_refl).
  - exact (proj1 (proj1
      (C9_login (request_of anonymous {[ "password" := JStr "" ]} "")) "s3cret") eq_refl).
  - refine (proj2 (proj2 (proj1 (proj2
      (C9_login (request_of anonymous {[ "password" := JStr "guess" ]} ""))) (Some "s3cret")))
      eq_refl _).
    cbn. rewrite lookup_singleton_eq. congruence.
Defined.

(** ** The read routes *)

(** C8.  Behind the gate, the read of the setting document always answers
    200 and touches nothing: with the stored document when [fond.json]
    exists and parses, with [{ background: '#f2f2f2' }] when the file is
    missing or does not parse. *)
Theorem C8_get_fond `{!Builtins} (req : request) (d : disk) :
  authenticated (req_session req) = true →
  ((∀ data v, readFile Data.FOND_FILE d = Some data → JSON_parse data = Some v →
      Data.get_fond req d = (Json 200 v, d))
   ∧ (readFile Data.FOND_FILE d = None → Data.get_fond req d = (Json 200 default_fond, d))
   ∧ (∀ data, readFile Data.FOND_FILE d = Some data → JSON_parse data = None →
        Data.get_fond req d = (Json 200 default_fond, d))
   ∧ ∃ v, Data.get_fond req d = (Json 200 v, d))
  ∧ ((∀ data v, readFile Part000.FOND_FILE d = Some data → JSON_parse data = Some v →
        Part000.get_fond req d = (Json 200 v, d))
     ∧ (readFile Part000.FOND_FILE d = None →
        Part000.get_fond req d = (Json 200 default_fond, d))
     ∧ (∀ data, readFile Part000.FOND_FILE d = Some data → JSON_parse data = None →
          Part000.get_fond req d = (Json 200 default_fond, d))
     ∧ ∃ v, Part000.get_fond req d = (Json 200 v, d)).
Proof.
  intros Hs.
  unfold Data.get_fond, Data.requireLogin, Part000.get_fond, Part000.requireLogin.
  rewrite Hs. split; repeat split.
  - by intros data v -> ->.
  - by intros ->.
  - by intros data -> ->.
  - destruct (readFile Data.FOND_FILE d) as [data|]; [|by eexists].
    destruct (JSON_parse data); by eexists.
  - intros data v ->. cbn. by intros ->.
  - by intros ->.
  - intros data ->. cbn. by intros ->.
  - destruct (readFile Part000.FOND_FILE d ≫= JSON_parse); by eexists.
Qed.

(** The default on a disk without [fond.json], the stored document on a
    disk that holds one. *)
Lemma C8_get_fond_witness :
  Data.get_fond (request_of admin ∅ "") empty_disk = (Json 200 default_fond, empty_disk)
  ∧ Part000.get_fond (request_of admin ∅ "")
      (disk_with Part000.FOND_FILE (JSON_stringify (obj1 "background" "#000")))
    = (Json 200 (obj1 "background" "#000"),
       disk_with Part000.FOND_FILE (JSON_stringify (obj1 "background" "#000"))).
Proof.
  split.
  - exact (proj1 (proj2 (proj1 (C8_get_fond (request_of admin ∅ "") empty_disk eq_refl)))
             eq_refl).
  - exact (proj1 (proj2 (C8_get_fond (request_of admin ∅ "")
             (disk_with Part000.FOND_FILE (JSON_stringify (obj1 "background" "#000")))
             eq_refl))
             _ _ (lookup_singleton_eq _ _) (JSON_parse_stringify _)).
Defined.

(** C4 (counterexample).  Behind the gate, [GET /articles.json] on a disk
    without [articles.json] is answered 500 by both servers that have the
    route, not with an empty list. *)
Lemma C4_counterexample :
  readFile Data.ARTICLES_FILE empty_disk = None
  ∧ Data.get_articles (request_of admin ∅ "") empty_disk
    = (Send 500 "Erreur lecture articles", empty_disk)
  ∧ Part000.get_articles (request_of admin ∅ "") empty_disk
    = (Json 500 (obj1 "error" "Erreur lecture articles"), empty_disk).
Proof. done. Qed.

(** C4 (amended).  Behind the gate, [GET /articles.json] answers 200 with
    what the file holds when the file exists and parses, an empty file
    reading as the empty list; it answers 500 [Erreur lecture articles]
    when the file is missing, and the server with the [try]/[catch] does so
    too when the file does not parse.  The disk is left as it was. *)
Theorem C4_get_articles `{!Builtins} (req : request) (d : disk) :
  authenticated (req_session req) = true →
  ((readFile Data.ARTICLES_FILE d = None →
    Data.get_articles req d = (Send 500 "Erreur lecture articles", d))
   ∧ (readFile Data.ARTICLES_FILE d = Some "" →
      Data.get_articles req d = (Json 200 (JArr []), d))
   ∧ (∀ data v, readFile Data.ARTICLES_FILE d = Some data → data ≠ "" →
        JSON_parse data = Some v → Data.get_articles req d = (Json 200 v, d)))
  ∧ ((readFile Part000.ARTICLES_FILE d = None →
      Part000.get_articles req d = (Json 500 (obj1 "error" "Erreur lecture articles"), d))
     ∧ (readFile Part000.ARTICLES_FILE d = Some "" →
        Part000.get_articles req d = (Json 200 (JArr []), d))
     ∧ (∀ data v, readFile Part000.ARTICLES_FILE d = Some data → data ≠ "" →
          JSON_parse data = Some v → Part000.get_articles req d = (Json 200 v, d))
     ∧ (∀ data, readFile Part000.ARTICLES_FILE d = Some data → data ≠ "" →
          JSON_parse data = None →
          Part000.get_articles req d
          = (Json 500 (obj1 "error" "Erreur lecture articles"), d))).
Proof.
  intros Hs.
  assert (Hor : ∀ data, data ≠ "" → or_brackets data = data).
  { intros data Hne. unfold or_brackets.
    destruct (String.eqb_spec data ""); [done|done]. }
  unfold Data.get_articles, Data.requireLogin, Part000.get_articles, Part000.requireLogin.
  rewrite Hs. split; repeat split.
  - by intros ->.
  - intros ->. cbn. by rewrite JSON_parse_brackets.
  - intros data v -> Hne. rewrite (Hor _ Hne). by intros ->.
  - by intros ->.
  - intros ->. cbn. by rewrite JSON_parse_brackets.
  - intros data v -> Hne. rewrite (Hor _ Hne). by intros ->.
  - intros data -> Hne. rewrite (Hor _ Hne). by intros ->.
Qed.

(** An empty file reads as the empty list; a missing file is an error. *)
Lemma C4_get_articles_witness :
  Part000.get_articles (request_of admin ∅ "") (disk_with Part000.ARTICLES_FILE "")
  = (Json 200 (JArr []), disk_with Part000.ARTICLES_FILE "")
  ∧ Data.get_articles (request_of admin ∅ "") empty_disk
    = (Send 500 "Erreur lecture articles", empty_disk).
Proof.
  split.
  - exact (proj1 (proj2 (proj2
      (C4_get_articles (request_of admin ∅ "") (disk_with Part000.ARTICLES_FILE "") eq_refl)))
      (lookup_singleton_eq _ _)).
  - exact (proj1 (proj1
      (C4_get_articles (request_of admin ∅ "") empty_disk eq_refl)) eq_refl).
Defined.

(** ** Delete on a file that does not parse *)

(** C7.  When [articles.json] exists and does not parse, [DELETE
    /articles/:id] fails with a 500 that reports the file ([Fichier articles
    corrompu] in [data/server.js] and [uploads/PIPOU/server.js], [Erreur
    lecture articles] in [server.js]) and the disk is left as it was. *)
Theorem C7_delete_corrupt `{!Builtins} (req : request) (d : disk) (data : string) :
  JSON_parse data = None →
  (authenticated (req_session req) = true → readFile Data.ARTICLES_FILE d = Some data →
   Data.delete_articles req d = (Send 500 "Fichier articles corrompu", d))
  ∧ (readFile Legacy.ARTICLES_FILE d = Some data →
     Legacy.delete_articles req d = (Send 500 "Fichier articles corrompu", d))
  ∧ (authenticated (req_session req) = true → readFile Main.ARTICLES_FILE d = Some data →
     Main.delete_articles req d = (Json 500 (obj1 "error" "Erreur lecture articles"), d)).
Proof.
  intros Hparse. repeat split.
  - intros Hs Hread. unfold Data.delete_articles, Data.requireLogin.
    by rewrite Hs, Hread, Hparse.
  - intros Hread. unfold Legacy.delete_articles. by rewrite Hread, Hparse.
  - intros Hs Hread. unfold Main.delete_articles, Main.requireLogin.
    rewrite Hs, Hread. cbn. by rewrite Hparse.
Qed.

(** A file that the reference [JSON.parse] refuses. *)
Lemma C7_delete_corrupt_witness :
  JSON_parse "{oops" = None
  ∧ Data.delete_articles (request_of admin ∅ "7") (disk_with Data.ARTICLES_FILE "{oops")
    = (Send 500 "Fichier articles corrompu", disk_with Data.ARTICLES_FILE "{oops").
Proof.
  split; [done|].
  exact (proj1 (C7_delete_corrupt (request_of admin ∅ "7")
                  (disk_with Data.ARTICLES_FILE "{oops") "{oops" eq_refl)
           eq_refl (lookup_singleton_eq _ _)).
Defined.

(** ** Update *)

Section update.
Context `{!Builtins}.

Lemma read_back file v d d' :
  writeFile file (JSON_stringify v) d = Some d' →
  readFile file d' ≫= JSON_parse = Some v.
Proof.
  intros Hw. rewrite (readFile_writeFile _ _ _ _ Hw). cbn. apply JSON_parse_stringify.
Qed.

Lemma first_with_id_lt id rs i : first_with_id id rs i → i < length rs.
Proof. intros [(r & Hr & _) _]. by eapply lookup_lt_Some. Qed.

Lemma updated_record (rs : list fields) i id attrs :
  i < length rs →
  ∃ r', <[i := with_id id attrs]> rs !! i = Some r'
        ∧ r' !! "id" = Some (JNum id)
        ∧ ∀ k, k ≠ "id" → r' !! k = attrs !! k.
Proof.
  intros Hi. exists (with_id id attrs). split; [by apply list_lookup_insert_eq|].
  unfold with_id. split; [apply lookup_insert_eq|].
  intros k Hk. by apply lookup_insert_ne.
Qed.

(** The three steps every update by id shares, once the list is loaded. *)
Lemma update_loaded file (rs : list fields) id attrs d i :
  first_with_id id rs i → file ∉ denied d →
  findIndex (id_is (Int id)) (JObj <$> rs) = Ok (Some i)
  ∧ <[i := JObj (<["id" := number_json (Int id)]> attrs)]> (JObj <$> rs)
    = JObj <$> <[i := with_id id attrs]> rs
  ∧ ∃ d', writeFile file (JSON_stringify (JArr (JObj <$> <[i := with_id id attrs]> rs))) d
          = Some d'.
Proof.
  intros [(r & Hr & Hid) Hfirst] Hw. split; [|split].
  - by eapply findIndex_first_match.
  - by rewrite list_fmap_insert.
  - rewrite writeFile_allowed by done. by eexists.
Qed.

Lemma Main_put_by_id (rs : list fields) id req d :
  parseInt (params_id req) = Int id →
  authenticated (req_session req) = true →
  Main.validationResult (body req) = [] →
  readFile Main.ARTICLES_FILE d ≫= JSON_parse = Some (JArr (JObj <$> rs)) →
  Main.ARTICLES_FILE ∉ denied d →
  updates_by_id Main.ARTICLES_FILE Main.put_articles rs id req d.
Proof.
  intros Hid Hs Hv Hstored Hw.
  unfold updates_by_id, Main.put_articles, Main.requireLogin, Main.validated.
  rewrite Hs, Hv, Hid, Hstored. split.
  - intros Hnone. by rewrite findIndex_no_match.
  - intros i Hi. cbv zeta.
    destruct (update_loaded Main.ARTICLES_FILE rs id (body req) d i Hi Hw)
      as (-> & -> & d' & Hd').
    rewrite Hd'. exists d'. split; [done|]. split; [done|].
    split; [by eapply read_back|].
    apply updated_record. by eapply first_with_id_lt.
Qed.

Lemma Data_put_by_id (rs : list fields) id req d :
  parseInt (params_id req) = Int id →
  authenticated (req_session req) = true →
  readFile Data.ARTICLES_FILE d ≫= JSON_parse = Some (JArr (JObj <$> rs)) →
  Data.ARTICLES_FILE ∉ denied d →
  updates_by_id Data.ARTICLES_FILE Data.put_articles rs id req d.
Proof.
  intros Hid Hs Hstored Hw.
  unfold updates_by_id, Data.put_articles, Data.requireLogin.
  rewrite Hs, Hid, Hstored. split.
  - intros Hnone. by rewrite findIndex_no_match.
  - intros i Hi. cbv zeta.
    destruct (update_loaded Data.ARTICLES_FILE rs id (body req) d i Hi Hw)
      as (-> & -> & d' & Hd').
    rewrite Hd'. exists d'. split; [done|]. split; [done|].
    split; [by eapply read_back|].
    apply updated_record. by eapply first_with_id_lt.
Qed.

Lemma Legacy_put_by_position (rs : list fields) index req d :
  parseInt (params_id req) = Int index →
  readFile Legacy.ARTICLES_FILE d ≫= JSON_parse = Some (JArr (JObj <$> rs)) →
  Legacy.ARTICLES_FILE ∉ denied d →
  updates_by_position Legacy.ARTICLES_FILE Legacy.put_articles rs index req d.
Proof.
  intros Hid Hstored Hw.
  unfold updates_by_position, Legacy.put_articles, Legacy.in_range, Legacy.js_length.
  rewrite Hstored, Hid, ToNumber_num, length_fmap. split.
  - intros [Hneg|Hbig].
    + by rewrite (proj2 (Z.ltb_lt _ _) Hneg).
    + destruct (index <? 0)%Z; [done|].
      by rewrite (proj2 (Z.ltb_ge _ _) Hbig).
  - intros [Hlo Hhi]. cbv zeta.
    rewrite (proj2 (Z.ltb_ge _ _) Hlo), (proj2 (Z.ltb_lt _ _) Hhi).
    unfold Legacy.assign_index. rewrite <-list_fmap_insert.
    rewrite writeFile_allowed by done. eexists. split; [done|]. split; [done|].
    split.
    + eapply read_back. by apply writeFile_allowed.
    + apply list_lookup_insert_eq. lia.
Qed.

End update.

(** C2 (counterexample).  In [uploads/PIPOU/server.js] the parameter of
    [PUT] is a position: sent to 0 on a list whose only record has id 7, an
    update with attributes that hold no id is answered 200 and the list
    read back holds those attributes alone, the id 7 gone; sent to 7, the id
    of that record, it is answered 404. *)
Lemma C2_counterexample :
  let d := disk_with Legacy.ARTICLES_FILE (JSON_stringify (JArr [JObj (with_id 7 tee)])) in
  (Legacy.put_articles (request_of admin tee_v2 "0") d).1 = modified
  ∧ readFile Legacy.ARTICLES_FILE (Legacy.put_articles (request_of admin tee_v2 "0") d).2
    ≫= JSON_parse = Some (JArr [JObj tee_v2])
  ∧ tee_v2 !! "id" = None
  ∧ Legacy.put_articles (request_of admin tee_v2 "7") d = (not_found, d).
Proof.
  cbv zeta.
  pose (d := disk_with Legacy.ARTICLES_FILE (JSON_stringify (JArr [JObj (with_id 7 tee)]))).
  assert (Hstored : readFile Legacy.ARTICLES_FILE d ≫= JSON_parse
                    = Some (JArr (JObj <$> [with_id 7 tee]))).
  { unfold d, disk_with, readFile. cbn [files]. rewrite lookup_singleton_eq.
    apply JSON_parse_stringify. }
  assert (Hw : Legacy.ARTICLES_FILE ∉ denied d) by apply not_elem_of_empty.
  assert (H0 : parseInt (params_id (request_of admin tee_v2 "0")) = Int 0) by done.
  assert (H7 : parseInt (params_id (request_of admin tee_v2 "7")) = Int 7) by done.
  destruct (Legacy_put_by_position [with_id 7 tee] 0 _ d H0 Hstored Hw) as [_ Hin].
  destruct Hin as (d' & Hput & _ & Hread & _); [cbn; lia|].
  destruct (Legacy_put_by_position [with_id 7 tee] 7 _ d H7 Hstored Hw) as [Hout _].
  fold d. rewrite Hput, Hout by (right; cbn; lia).
  split; [done|]. split; [exact Hread|]. split; [|done].
  unfold tee_v2. by rewrite !lookup_insert_ne.
Qed.

(** C2 (amended).  In [server.js] (behind the gate and the validation) and
    in [data/server.js] (behind the gate), for every stored list of records
    and every integer id: update answers 404 and writes nothing when no
    record carries the id; otherwise the first record that carries it is
    replaced by the attributes sent under that same id (a full replacement,
    not a merge), the whole list is written, and the next read finds the
    attributes sent with the original id.  In [uploads/PIPOU/server.js] the
    parameter is a position in the list: out of the list it is answered 404
    with nothing written; within, the record there is replaced by the body
    as it was sent and no id is kept. *)
Theorem C2_update `{!Builtins} (rs : list fields) (id : Z) (req : request) (d : disk) :
  parseInt (params_id req) = Int id →
  (authenticated (req_session req) = true →
   Main.validationResult (body req) = [] →
   readFile Main.ARTICLES_FILE d ≫= JSON_parse = Some (JArr (JObj <$> rs)) →
   Main.ARTICLES_FILE ∉ denied d →
   updates_by_id Main.ARTICLES_FILE Main.put_articles rs id req d)
  ∧ (authenticated (req_session req) = true →
     readFile Data.ARTICLES_FILE d ≫= JSON_parse = Some (JArr (JObj <$> rs)) →
     Data.ARTICLES_FILE ∉ denied d →
     updates_by_id Data.ARTICLES_FILE Data.put_articles rs id req d)
  ∧ (readFile Legacy.ARTICLES_FILE d ≫= JSON_parse = Some (JArr (JObj <$> rs)) →
     Legacy.ARTICLES_FILE ∉ denied d →
     updates_by_position Legacy.ARTICLES_FILE Legacy.put_articles rs id req d).
Proof.
  intros Hid. split; [|split].
  - intros. by apply Main_put_by_id.
  - intros. by apply Data_put_by_id.
  - intros. by apply Legacy_put_by_position.
Qed.

(** The record of id 7 replaced by the attributes of [tee_v2]. *)
Lemma C2_update_witness :
  ∃ d', Main.put_articles (request_of admin tee_v2 "7")
          (disk_with Main.ARTICLES_FILE (JSON_stringify (JArr (JObj <$> [with_id 7 tee]))))
        = (modified, d')
        ∧ readFile Main.ARTICLES_FILE d' ≫= JSON_parse
          = Some (JArr (JObj <$> [with_id 7 tee_v2])).
Proof.
  destruct (@C2_update reference_builtins [with_id 7 tee] 7 (request_of admin tee_v2 "7")
              (disk_with Main.ARTICLES_FILE (JSON_stringify (JArr (JObj <$> [with_id 7 tee]))))
              eq_refl) as [HMain _].
  destruct HMain as [_ Hfound].
  - reflexivity.
  - reflexivity.
  - unfold disk_with, readFile. cbn [files]. rewrite lookup_singleton_eq.
    apply JSON_parse_stringify.
  - apply not_elem_of_empty.
  - destruct (Hfound 0) as (d' & Hput & _ & Hread & _).
    + split.
      * exists (with_id 7 tee). split; [reflexivity|]. apply lookup_insert_eq.
      * intros j r' Hj. lia.
    + exists d'. split; [exact Hput|exact Hread].
Defined.

(** ** Delete *)

Section delete.
Context `{!Builtins}.

Lemma filter_keeps_all {A} (P : A → Prop) `{!∀ x, Decision (P x)} (l : list A) :
  length (filter P l) = length l ↔ Forall P l.
Proof.
  induction l as [|x l IH]; [done|].
  destruct (decide (P x)) as [Hx|Hx].
  - rewrite filter_cons_True by done. cbn. rewrite Forall_cons.
    split; [intros [=]; tauto|intros [_ Hl]; f_equal; tauto].
  - rewrite filter_cons_False by done. cbn. rewrite Forall_cons.
    pose proof (length_filter P l). split; [lia|tauto].
Qed.

Lemma Main_delete_by_id (rs : list fields) id req d :
  parseInt (params_id req) = Int id →
  authenticated (req_session req) = true →
  readFile Main.ARTICLES_FILE d ≫= JSON_parse = Some (JArr (JObj <$> rs)) →
  Main.ARTICLES_FILE ∉ denied d →
  deletes_by_id Main.ARTICLES_FILE Main.delete_articles rs id req d.
Proof.
  intros Hid Hs.
  assert (Hsame : ∀ rs d,
    readFile Main.ARTICLES_FILE d ≫= JSON_parse = Some (JArr (JObj <$> rs)) →
    length (filter (λ r, ¬ has_id id r) rs) = length rs →
    Main.delete_articles req d = (not_found, d)).
  { clear rs d. intros rs d Hstored Hlen.
    unfold Main.delete_articles, Main.requireLogin.
    rewrite Hs, Hid, Hstored, array_filter_records, !length_fmap, Hlen.
    by rewrite Nat.eqb_refl. }
  intros Hstored Hw. unfold deletes_by_id. cbv zeta. split; [by apply Hsame|].
  intros Hlen.
  pose proof (writeFile_allowed Main.ARTICLES_FILE
    (JSON_stringify (JArr (JObj <$> filter (λ r, ¬ has_id id r) rs))) d Hw) as Hwrite.
  eexists. split; [|split; [exact Hwrite|split]].
  - unfold Main.delete_articles, Main.requireLogin.
    rewrite Hs, Hid, Hstored, array_filter_records, !length_fmap.
    rewrite (proj2 (Nat.eqb_neq _ _) Hlen). by rewrite Hwrite.
  - by eapply read_back.
  - apply (Hsame (filter (λ r, ¬ has_id id r) rs)); [by eapply read_back|].
    apply filter_keeps_all, list.Forall_forall. intros r Hr.
    by apply list_elem_of_filter in Hr as [Hr _].
Qed.

Lemma Data_delete_by_id (rs : list fields) id req d :
  parseInt (params_id req) = Int id →
  authenticated (req_session req) = true →
  readFile Data.ARTICLES_FILE d ≫= JSON_parse = Some (JArr (JObj <$> rs)) →
  Data.ARTICLES_FILE ∉ denied d →
  deletes_by_id Data.ARTICLES_FILE Data.delete_articles rs id req d.
Proof.
  intros Hid Hs.
  assert (Hsame : ∀ rs d,
    readFile Data.ARTICLES_FILE d ≫= JSON_parse = Some (JArr (JObj <$> rs)) →
    length (filter (λ r, ¬ has_id id r) rs) = length rs →
    Data.delete_articles req d = (not_found, d)).
  { clear rs d. intros rs d Hstored Hlen.
    unfold Data.delete_articles, Data.requireLogin. rewrite Hs, Hid.
    destruct (readFile Data.ARTICLES_FILE d) as [data|]; [|done].
    cbn in Hstored. rewrite Hstored, array_filter_records, !length_fmap, Hlen.
    by rewrite Nat.eqb_refl. }
  intros Hstored Hw. unfold deletes_by_id. cbv zeta. split; [by apply Hsame|].
  intros Hlen.
  pose proof (writeFile_allowed Data.ARTICLES_FILE
    (JSON_stringify (JArr (JObj <$> filter (λ r, ¬ has_id id r) rs))) d Hw) as Hwrite.
  eexists. split; [|split; [exact Hwrite|split]].
  - unfold Data.delete_articles, Data.requireLogin. rewrite Hs, Hid.
    destruct (readFile Data.ARTICLES_FILE d) as [data|]; [|done].
    cbn in Hstored. rewrite Hstored, array_filter_records, !length_fmap.
    rewrite (proj2 (Nat.eqb_neq _ _) Hlen). by rewrite Hwrite.
  - by eapply read_back.
  - apply (Hsame (filter (λ r, ¬ has_id id r) rs)); [by eapply read_back|].
    apply filter_keeps_all, list.Forall_forall. intros r Hr.
    by apply list_elem_of_filter in Hr as [Hr _].
Qed.

End delete.

(** C3.  In [server.js] and [data/server.js], behind the gate, for every
    stored list of records and every integer id: the filter keeps every
    record exactly when none carries the id, and then delete answers 404 and
    writes nothing; otherwise delete answers 200, the list without the
    records that carry the id is written, and the same delete sent again is
    answered 404 with nothing written. *)
Theorem C3_delete `{!Builtins} (rs : list fields) (id : Z) (req : request) (d : disk) :
  parseInt (params_id req) = Int id →
  authenticated (req_session req) = true →
  (length (filter (λ r, ¬ has_id id r) rs) = length rs ↔ Forall (λ r, ¬ has_id id r) rs)
  ∧ (readFile Main.ARTICLES_FILE d ≫= JSON_parse = Some (JArr (JObj <$> rs)) →
     Main.ARTICLES_FILE ∉ denied d →
     deletes_by_id Main.ARTICLES_FILE Main.delete_articles rs id req d)
  ∧ (readFile Data.ARTICLES_FILE d ≫= JSON_parse = Some (JArr (JObj <$> rs)) →
     Data.ARTICLES_FILE ∉ denied d →
     deletes_by_id Data.ARTICLES_FILE Data.delete_articles rs id req d).
Proof.
  intros Hid Hs. split; [apply filter_keeps_all|]. split.
  - intros. by apply Main_delete_by_id.
  - intros. by apply Data_delete_by_id.
Qed.

(** The record of id 7 deleted, then asked for again. *)
Lemma C3_delete_witness :
  ∃ d', Main.delete_articles (request_of admin ∅ "7")
          (disk_with Main.ARTICLES_FILE (JSON_stringify (JArr (JObj <$> [with_id 7 tee]))))
        = (deleted, d')
        ∧ readFile Main.ARTICLES_FILE d' ≫= JSON_parse = Some (JArr [])
        ∧ Main.delete_articles (request_of admin ∅ "7") d' = (not_found, d').
Proof.
  destruct (@C3_delete reference_builtins [with_id 7 tee] 7 (request_of admin ∅ "7")
              (disk_with Main.ARTICLES_FILE (JSON_stringify (JArr (JObj <$> [with_id 7 tee]))))
              eq_refl eq_refl) as (_ & HMain & _).
  destruct HMain as [_ Hfound].
  - unfold disk_with, readFile. cbn [files]. rewrite lookup_singleton_eq.
    apply JSON_parse_stringify.
  - apply not_elem_of_empty.
  - destruct Hfound as (d' & Hdel & _ & Hread & Hagain).
    + rewrite filter_cons_False; [cbn; lia|].
      intros Hno. apply Hno. apply lookup_insert_eq.
    + exists d'. rewrite filter_cons_False in Hread.
      * split; [exact Hdel|]. split; [exact Hread|exact Hagain].
      * intros Hno. apply Hno. apply lookup_insert_eq.
Defined.

(** ** An id that is not a number *)

Section malformed_id.
Context `{!Builtins}.

Lemma findIndex_NaN_records (rs : list fields) :
  findIndex (id_is NaN) (JObj <$> rs) = Ok None.
Proof.
  induction rs as [|r rs IH]; [done|].
  rewrite fmap_cons, findIndex_cons, IH. unfold id_is. cbn.
  by rewrite strict_eq_number_NaN.
Qed.

Lemma array_filter_NaN_records (rs : list fields) :
  array_filter (id_is_not NaN) (JObj <$> rs) = Ok (JObj <$> rs).
Proof.
  induction rs as [|r rs IH]; [done|].
  rewrite fmap_cons, array_filter_cons, IH. unfold id_is_not. cbn.
  by rewrite strict_eq_number_NaN.
Qed.

(** With an id that is [NaN], [PUT] never reaches [writeFile]. *)
Lemma Main_put_NaN_no_write req d :
  parseInt (params_id req) = NaN → (Main.put_articles req d).2 = d.
Proof.
  intros Hid. unfold Main.put_articles, Main.requireLogin, Main.validated.
  destruct (authenticated (req_session req)); [|done].
  destruct (Main.validationResult (body req)); [|done].
  rewrite Hid.
  destruct (readFile Main.ARTICLES_FILE d ≫= JSON_parse) as [[| | | |l|]|]; try done.
  by destruct (findIndex_NaN l) as [-> | ->].
Qed.

(** With an id that is [NaN], [DELETE] never reaches [writeFile]. *)
Lemma Main_delete_NaN_no_write req d :
  parseInt (params_id req) = NaN → (Main.delete_articles req d).2 = d.
Proof.
  intros Hid. unfold Main.delete_articles, Main.requireLogin.
  destruct (authenticated (req_session req)); [|done].
  rewrite Hid.
  destruct (readFile Main.ARTICLES_FILE d ≫= JSON_parse) as [[| | | |l|]|]; try done.
  destruct (array_filter (id_is_not NaN) l) as [r|] eqn:Hf; [|done].
  apply array_filter_NaN in Hf as ->. by rewrite Nat.eqb_refl.
Qed.

End malformed_id.

(** C10.  In [server.js], when the id of the path does not parse to an
    integer, update and delete write nothing, whatever the request and the
    disk; and behind the gate, on a stored list of records, delete is
    answered 404, and so is an update whose body passes the validation:
    the malformed id matches no record and is reported as not found. *)
Theorem C10_malformed_id `{!Builtins} (req : request) (d : disk) :
  parseInt (params_id req) = NaN →
  ((Main.put_articles req d).2 = d ∧ (Main.delete_articles req d).2 = d)
  ∧ ∀ rs : list fields,
      authenticated (req_session req) = true →
      readFile Main.ARTICLES_FILE d ≫= JSON_parse = Some (JArr (JObj <$> rs)) →
      (Main.validationResult (body req) = [] → Main.put_articles req d = (not_found, d))
      ∧ Main.delete_articles req d = (not_found, d).
Proof.
  intros Hid. split.
  - split; [by apply Main_put_NaN_no_write|by apply Main_delete_NaN_no_write].
  - intros rs Hs Hstored. split.
    + intros Hv. unfold Main.put_articles, Main.requireLogin, Main.validated.
      by rewrite Hs, Hv, Hid, Hstored, findIndex_NaN_records.
    + unfold Main.delete_articles, Main.requireLogin.
      rewrite Hs, Hid, Hstored, array_filter_NaN_records.
      by rewrite Nat.eqb_refl.
Qed.

(** [DELETE /articles/abc] on a list that holds one record. *)
Lemma C10_malformed_id_witness :
  parseInt "abc" = NaN
  ∧ Main.delete_articles (request_of admin ∅ "abc")
      (disk_with Main.ARTICLES_FILE (JSON_stringify (JArr (JObj <$> [with_id 7 tee]))))
    = (not_found,
       disk_with Main.ARTICLES_FILE (JSON_stringify (JArr (JObj <$> [with_id 7 tee])))).
Proof.
  split; [reflexivity|].
  refine (proj2 (proj2 (@C10_malformed_id reference_builtins (request_of admin ∅ "abc")
    (disk_with Main.ARTICLES_FILE (JSON_stringify (JArr (JObj <$> [with_id 7 tee]))))
    eq_refl) [with_id 7 tee] eq_refl _)).
  unfold disk_with, readFile. cbn [files]. rewrite lookup_singleton_eq.
  apply JSON_parse_stringify.
Defined.

(** ** Uniqueness of the ids *)

Section unique_ids.
Context `{!Builtins}.


Lemma id_is_true id a : id_is id a = Ok true → id_of a = Some (number_json id).
Proof.
  unfold id_is, prop_id. destruct a as [| | | | |m]; try done.
  intros [= Heq]. cbn.
  destruct (m !! "id") as [[| |z| | |]|], id as [|z']; try done.
  cbn in Heq. apply Z.eqb_eq in Heq as ->. done.
Qed.

(** The list [POST /articles] holds after the push is the collection at
    rest with the new article at its end. *)
Lemma create_load_collection now req d articles :
  Main.create_load now req d = Ok articles →
  articles = collection Main.ARTICLES_FILE d ++ [new_article now req].
Proof.
  unfold Main.create_load, collection.
  destruct (readFile Main.ARTICLES_FILE d ≫= JSON_parse) as [[| | | |l|]|]; try done.
  - by intros [= <-].
  - by intros [= <-].
Qed.








End unique_ids.

Section unique_ids_data.
Context `{!Builtins}.




End unique_ids_data.




(** ** Two creates in flight *)

Section two_creates.
Context `{!Builtins}.

Lemma advance_first t ts d :
  Main.advance 0 (t :: ts, d) = ((Main.step t d).1 :: ts, (Main.step t d).2).
Proof. unfold Main.advance. cbn. by destruct (Main.step t d). Qed.

Lemma advance_second t0 t ts d :
  Main.advance 1 (t0 :: t :: ts, d) = (t0 :: (Main.step t d).1 :: ts, (Main.step t d).2).
Proof. unfold Main.advance. cbn. by destruct (Main.step t d). Qed.

Lemma step_reading now req d :
  holds_a_list Main.ARTICLES_FILE d →
  Main.step (Main.Reading now req) d
  = (Main.Writing (collection Main.ARTICLES_FILE d ++ [new_article now req]), d).
Proof.
  intros Hlist. unfold Main.step, Main.create_load, collection.
  destruct (readFile Main.ARTICLES_FILE d ≫= JSON_parse) as [v|] eqn:Hst; [|done].
  by destruct (Hlist v Hst) as [l ->].
Qed.

Lemma step_writing l d :
  Main.ARTICLES_FILE ∉ denied d →
  Main.step (Main.Writing l) d = (Main.Answered created, write_list l d).
Proof.
  intros Hw. unfold Main.step, Main.create_save. by rewrite writeFile_allowed.
Qed.

Lemma collection_write_list l d : collection Main.ARTICLES_FILE (write_list l d) = l.
Proof.
  unfold collection, write_list, readFile. cbn [files].
  rewrite lookup_insert_eq. cbn. by rewrite JSON_parse_stringify.
Qed.

Lemma holds_a_list_write_list l d : holds_a_list Main.ARTICLES_FILE (write_list l d).
Proof.
  intros v. unfold write_list, readFile. cbn [files].
  rewrite lookup_insert_eq. cbn. rewrite JSON_parse_stringify.
  intros [= <-]. by eexists.
Qed.

(** Served alone, a request that passed the gate and the validation takes
    its two turns and ends as [POST /articles] does. *)
Lemma post_articles_two_turns now req d :
  authenticated (req_session req) = true →
  Main.validationResult (body req) = [] →
  Main.run [0; 0] ([Main.Reading now req], d)
  = ([Main.Answered (Main.post_articles now req d).1], (Main.post_articles now req d).2).
Proof.
  intros Hs Hv. unfold Main.run. cbn [foldl]. rewrite advance_first.
  unfold Main.post_articles, Main.requireLogin, Main.validated. rewrite Hs, Hv.
  assert (Hturn : Main.step (Main.Reading now req) d
                  = match Main.create_load now req d with
                    | Ok articles => (Main.Writing articles, d)
                    | TypeError =>
                        (Main.Answered (Json 500 (obj1 "error" "Erreur sauvegarde article")), d)
                    end) by done.
  rewrite Hturn.
  destruct (Main.create_load now req d) as [articles|]; cbn [fst snd].
  - rewrite advance_first. unfold Main.step.
    by destruct (Main.create_save articles d).
  - by rewrite advance_first.
Qed.

End two_creates.

(** One turn of the schedule, on a state whose tasks and disk are known. *)
Ltac turn :=
  match goal with
  | |- context [Main.advance 0 (?t :: ?ts, ?d)] => rewrite (advance_first t ts d)
  | |- context [Main.advance 1 (?t0 :: ?t :: ?ts, ?d)] => rewrite (advance_second t0 t ts d)
  end;
  match goal with
  | |- context [Main.step (Main.Reading ?n ?r) ?d] =>
      rewrite (step_reading n r d) by first [done | apply holds_a_list_write_list]
  | |- context [Main.step (Main.Writing ?l) ?d] =>
      rewrite (step_writing l d) by done
  end;
  cbn [fst snd].

Section interleavings.
Context `{!Builtins}.

(** The six interleavings of two creates, turn by turn. *)
Lemma two_creates_run now1 now2 req1 req2 d schedule :
  holds_a_list Main.ARTICLES_FILE d →
  Main.ARTICLES_FILE ∉ denied d →
  schedule ∈ merges [0; 0] [1; 1] →
  let a1 := new_article now1 req1 in
  let a2 := new_article now2 req2 in
  let c := collection Main.ARTICLES_FILE d in
  let final := Main.run schedule ([Main.Reading now1 req1; Main.Reading now2 req2], d) in
  final.1 = [Main.Answered created; Main.Answered created]
  ∧ ((schedule = [0; 0; 1; 1] ∧ collection Main.ARTICLES_FILE final.2 = c ++ [a1; a2])
     ∨ (schedule = [1; 1; 0; 0] ∧ collection Main.ARTICLES_FILE final.2 = c ++ [a2; a1])
     ∨ (serial schedule = false
        ∧ (collection Main.ARTICLES_FILE final.2 = c ++ [a1]
           ∨ collection Main.ARTICLES_FILE final.2 = c ++ [a2]))).
Proof.
  intros Hlist Hw Hin. cbv zeta. cbn in Hin.
  repeat (apply elem_of_cons in Hin as [-> | Hin]); [..|by apply elem_of_nil in Hin];
    unfold Main.run; cbn [foldl]; do 4 turn; rewrite ?collection_write_list;
    (split; [done|]).
  - left. split; [done|]. by rewrite <-app_assoc.
  - right. right. split; [done|]. by right.
  - right. right. split; [done|]. by left.
  - right. right. split; [done|]. by right.
  - right. right. split; [done|]. by left.
  - right. left. split; [done|]. by rewrite <-app_assoc.
Qed.

End interleavings.

(** C6 (counterexample).  Two creates in flight in [server.js] on a disk
    without [public/articles.json], the second reading before the first has
    written: both are answered 201, and the file ends with the article of
    the second alone. *)
Lemma C6_counterexample :
  let final :=
    Main.run [0; 1; 0; 1]
      ([Main.Reading 5 (request_of admin tee ""); Main.Reading 6 (request_of admin tee_v2 "")],
       empty_disk) in
  collection Main.ARTICLES_FILE empty_disk = []
  ∧ final.1 = [Main.Answered created; Main.Answered created]
  ∧ collection Main.ARTICLES_FILE final.2 = [new_article 6 (request_of admin tee_v2 "")]
  ∧ length (collection Main.ARTICLES_FILE final.2) = 1.
Proof.
  cbv zeta.
  assert (Hlist : holds_a_list Main.ARTICLES_FILE empty_disk) by (intros v Hv; done).
  assert (Hw : Main.ARTICLES_FILE ∉ denied empty_disk) by apply not_elem_of_empty.
  unfold Main.run. cbn [foldl]. do 4 turn. rewrite collection_write_list.
  done.
Qed.

(** C6 (amended).  [server.js] takes no lock around the read-modify-write
    cycle of [POST /articles].  For two accepted creates on a writable
    articles file that holds a list, whatever the interleaving of their
    turns, both are answered 201; when one runs to its end before the other
    starts, both articles are in the final list, which has grown by two; in
    every other interleaving the later write replaces the earlier one and
    the final list has grown by one.  Served alone, a request takes its two
    turns and ends as the handler does. *)
Theorem C6_two_creates `{!Builtins} (now1 now2 : Z) (req1 req2 : request) (d : disk)
    (schedule : list nat) :
  holds_a_list Main.ARTICLES_FILE d →
  Main.ARTICLES_FILE ∉ denied d →
  schedule ∈ merges [0; 0] [1; 1] →
  let final := Main.run schedule ([Main.Reading now1 req1; Main.Reading now2 req2], d) in
  final.1 = [Main.Answered created; Main.Answered created]
  ∧ length (collection Main.ARTICLES_FILE final.2)
    = length (collection Main.ARTICLES_FILE d) + (if serial schedule then 2 else 1)
  ∧ (serial schedule = true →
     new_article now1 req1 ∈ collection Main.ARTICLES_FILE final.2
     ∧ new_article now2 req2 ∈ collection Main.ARTICLES_FILE final.2)
  ∧ (authenticated (req_session req1) = true →
     Main.validationResult (body req1) = [] →
     Main.run [0; 0] ([Main.Reading now1 req1], d)
     = ([Main.Answered (Main.post_articles now1 req1 d).1],
        (Main.post_articles now1 req1 d).2)).
Proof.
  intros Hlist Hw Hin. cbv zeta.
  destruct (two_creates_run now1 now2 req1 req2 d schedule Hlist Hw Hin)
    as [Hanswers Hcases].
  split; [exact Hanswers|].
  split; [|split; [|by apply post_articles_two_turns]].
  - destruct Hcases as [[-> ->]|[[-> ->]|[-> [-> | ->]]]];
      rewrite length_app; cbn [length]; unfold serial;
      rewrite ?bool_decide_eq_true_2 by first [by left | by right]; lia.
  - intros Hserial.
    destruct Hcases as [[-> ->]|[[-> ->]|[Hno _]]]; [| |congruence];
      split; apply elem_of_app; right;
        repeat first [apply list_elem_of_here | apply list_elem_of_further].
Qed.

(** One serial schedule and one that overlaps. *)
Lemma C6_two_creates_witness :
  length (collection Main.ARTICLES_FILE
    (Main.run [0; 0; 1; 1]
       ([Main.Reading 5 (request_of admin tee ""); Main.Reading 6 (request_of admin tee_v2 "")],
        empty_disk)).2) = 2
  ∧ length (collection Main.ARTICLES_FILE
      (Main.run [1; 0; 0; 1]
         ([Main.Reading 5 (request_of admin tee ""); Main.Reading 6 (request_of admin tee_v2 "")],
          empty_disk)).2) = 1.
Proof.
  assert (Hlist : holds_a_list Main.ARTICLES_FILE empty_disk).
  { intros v Hv. discriminate Hv. }
  assert (Hw : Main.ARTICLES_FILE ∉ denied empty_disk) by apply not_elem_of_empty.
  split.
  - refine (proj1 (proj2 (@C6_two_creates reference_builtins 5 6 (request_of admin tee "")
      (request_of admin tee_v2 "") empty_disk [0; 0; 1; 1] Hlist Hw _))).
    apply list_elem_of_here.
  - refine (proj1 (proj2 (@C6_two_creates reference_builtins 5 6 (request_of admin tee "")
      (request_of admin tee_v2 "") empty_disk [1; 0; 0; 1] Hlist Hw _))).
    do 3 apply list_elem_of_further. apply list_elem_of_here.
Defined.

(** ** Further properties *)

(** X17.  In [data/server.js], behind the gate and on a writable
    [fond.json], the write of the setting document replaces the file by the
    document sent, and the read that follows returns that document. *)
Theorem Data_fond_round_trip `{!Builtins} (req : request) (d : disk) :
  authenticated (req_session req) = true →
  Data.FOND_FILE ∉ denied d →
  ∃ d', Data.post_fond req d = (Json 200 (obj1 "message" "Fond mis à jour"), d')
        ∧ readFile Data.FOND_FILE d' = Some (JSON_stringify (JObj (body req)))
        ∧ Data.get_fond req d' = (Json 200 (JObj (body req)), d').
Proof.
  intros Hs Hw. unfold Data.post_fond, Data.get_fond, Data.requireLogin. rewrite Hs.
  rewrite writeFile_allowed by done. eexists. split; [done|].
  unfold readFile. cbn [files]. rewrite lookup_insert_eq. split; [done|].
  by rewrite JSON_parse_stringify.
Qed.

(** The document [{ background: '#000' }] written and read back. *)
Lemma Data_fond_round_trip_witness :
  ∃ d', Data.post_fond (request_of admin {[ "background" := JStr "#000" ]} "") empty_disk
        = (Json 200 (obj1 "message" "Fond mis à jour"), d')
        ∧ Data.get_fond (request_of admin {[ "background" := JStr "#000" ]} "") d'
          = (Json 200 (obj1 "background" "#000"), d').
Proof.
  destruct (@Data_fond_round_trip reference_builtins
              (request_of admin {[ "background" := JStr "#000" ]} "") empty_disk
              eq_refl (not_elem_of_empty _)) as (d' & Hpost & _ & Hget).
  exists d'. split; [exact Hpost|exact Hget].
Defined.

(** X18.  In [data/server.js], behind the gate and with the blob directory
    and [fond.json] writable, the upload of a blob stores it under the name
    multer gave it and replaces the setting document by the reference
    [url(/fonds/<name>)], which the read that follows returns. *)
Theorem Data_upload_links_blob `{!Builtins} (req : request) (f : upload) (d : disk) :
  authenticated (req_session req) = true →
  fond req = Some f →
  Data.fondsPath +:+ "/" +:+ filename f ∉ denied d →
  Data.FOND_FILE ∉ denied d →
  let imagePath := "/fonds/" +:+ filename f in
  let document := JObj {[ "background" := JStr ("url(" +:+ imagePath +:+ ")") ]} in
  ∃ d', Data.upload_fond req d
        = (Json 200 (JObj {[ "message" := JStr "Fond uploadé"; "path" := JStr imagePath ]}), d')
        ∧ readFile (Data.fondsPath +:+ "/" +:+ filename f) d' = Some (content f)
        ∧ Data.get_fond req d' = (Json 200 document, d').
Proof.
  intros Hs Hf Hblob Hw. cbv zeta.
  unfold Data.upload_fond, Data.upload_single, Data.get_fond, Data.requireLogin, store_blob.
  rewrite Hs, Hf. rewrite writeFile_allowed by done. rewrite ?Hf.
  rewrite writeFile_allowed by done. eexists. split; [done|].
  unfold readFile. cbn [files]. split.
  - rewrite lookup_insert_ne; [apply lookup_insert_eq|].
    unfold Data.FOND_FILE, Data.fondsPath. cbn. discriminate.
  - rewrite lookup_insert_eq. by rewrite JSON_parse_stringify.
Qed.

(** The upload of [png] on a disk without any file. *)
Lemma Data_upload_links_blob_witness :
  ∃ d', Data.upload_fond upload_request empty_disk
        = (Json 200 (JObj {[ "message" := JStr "Fond uploadé";
                             "path" := JStr "/fonds/a1b2" ]}), d')
        ∧ readFile "public/fonds/a1b2" d' = Some "PNG"
        ∧ Data.get_fond upload_request d'
          = (Json 200 (obj1 "background" "url(/fonds/a1b2)"), d').
Proof.
  destruct (@Data_upload_links_blob reference_builtins upload_request png empty_disk
              eq_refl eq_refl (not_elem_of_empty _) (not_elem_of_empty _))
    as (d' & Hup & Hblob & Hget).
  exists d'. split; [exact Hup|]. split; [exact Hblob|exact Hget].
Defined.

(** ** [server.js]: an answer of success and the write go together *)

Section all_or_nothing.
Context `{!Builtins}.

Lemma refused_400 v : refused (Json 400 v).
Proof. unfold refused. cbn. apply list_elem_of_here. Qed.

Lemma refused_401 v : refused (Json 401 v).
Proof. unfold refused. cbn. apply list_elem_of_further, list_elem_of_here. Qed.

Lemma refused_404 v : refused (Json 404 v).
Proof. unfold refused. cbn. do 2 apply list_elem_of_further. apply list_elem_of_here. Qed.

Lemma refused_500 v : refused (Json 500 v).
Proof. unfold refused. cbn. do 3 apply list_elem_of_further. apply list_elem_of_here. Qed.

Lemma writeFile_written path v d d' :
  writeFile path (JSON_stringify v) d = Some d' → d' = written path v d ∧ path ∉ denied d.
Proof. unfold writeFile, written. case_decide; [done|]. by intros [= <-]. Qed.

Lemma id_is_true_Int id a : id_is id a = Ok true → ∃ z, id = Int z ∧ id_of a = Some (JNum z).
Proof.
  intros Hid. destruct id as [|z].
  - destruct (id_is_NaN a) as [Hn|Hn]; rewrite Hn in Hid; discriminate Hid.
  - exists z. split; [done|]. by apply id_is_true in Hid.
Qed.

Lemma Main_create_all_or_nothing now req d :
  (Main.post_articles now req d
   = (created,
      written Main.ARTICLES_FILE
        (JArr (collection Main.ARTICLES_FILE d ++ [new_article now req])) d)
   ∧ Main.ARTICLES_FILE ∉ denied d)
  ∨ (refused (Main.post_articles now req d).1 ∧ (Main.post_articles now req d).2 = d).
Proof.
  unfold Main.post_articles, Main.requireLogin, Main.validated.
  destruct (authenticated (req_session req)); [|right; split; [apply refused_401|done]].
  destruct (Main.validationResult (body req)); [|right; split; [apply refused_400|done]].
  destruct (Main.create_load now req d) as [articles|] eqn:Hload;
    [|right; split; [apply refused_500|done]].
  apply create_load_collection in Hload as ->. unfold Main.create_save.
  destruct (writeFile _ _ d) as [d'|] eqn:Hw; [|right; split; [apply refused_500|done]].
  apply writeFile_written in Hw as [-> Hallowed]. by left.
Qed.

Lemma Main_put_all_or_nothing req d :
  (∃ z l i a,
     parseInt (params_id req) = Int z
     ∧ holds Main.ARTICLES_FILE l d
     ∧ l !! i = Some a ∧ id_of a = Some (JNum z)
     ∧ Main.put_articles req d
       = (modified, written Main.ARTICLES_FILE (JArr (<[i := new_article z req]> l)) d)
     ∧ Main.ARTICLES_FILE ∉ denied d)
  ∨ (refused (Main.put_articles req d).1 ∧ (Main.put_articles req d).2 = d).
Proof.
  unfold Main.put_articles, Main.requireLogin, Main.validated, holds.
  destruct (authenticated (req_session req)); [|right; split; [apply refused_401|done]].
  destruct (Main.validationResult (body req)); [|right; split; [apply refused_400|done]].
  destruct (readFile Main.ARTICLES_FILE d ≫= JSON_parse) as [[| | | |l|]|];
    try (right; split; [apply refused_500|done]).
  destruct (findIndex _ l) as [[i|]|] eqn:Hfind;
    [|right; split; [apply refused_404|done]|right; split; [apply refused_500|done]].
  apply findIndex_Some in Hfind as (a & Ha & Hid).
  apply id_is_true_Int in Hid as (z & Hz & Hid). rewrite Hz. cbn [number_json].
  destruct (writeFile _ _ d) as [d'|] eqn:Hw; [|right; split; [apply refused_500|done]].
  apply writeFile_written in Hw as [-> Hallowed].
  left. by exists z, l, i, a.
Qed.

Lemma Main_delete_all_or_nothing req d :
  (∃ l kept,
     holds Main.ARTICLES_FILE l d
     ∧ array_filter (id_is_not (parseInt (params_id req))) l = Ok kept
     ∧ length kept < length l
     ∧ Main.delete_articles req d = (deleted, written Main.ARTICLES_FILE (JArr kept) d)
     ∧ Main.ARTICLES_FILE ∉ denied d)
  ∨ (refused (Main.delete_articles req d).1 ∧ (Main.delete_articles req d).2 = d).
Proof.
  unfold Main.delete_articles, Main.requireLogin, holds.
  destruct (authenticated (req_session req)); [|right; split; [apply refused_401|done]].
  destruct (readFile Main.ARTICLES_FILE d ≫= JSON_parse) as [[| | | |l|]|];
    try (right; split; [apply refused_500|done]).
  destruct (array_filter _ l) as [kept|] eqn:Hf; [|right; split; [apply refused_500|done]].
  destruct (Nat.eqb_spec (length kept) (length l)) as [Heq|Hne];
    [right; split; [apply refused_404|done]|].
  destruct (writeFile _ _ d) as [d'|] eqn:Hw; [|right; split; [apply refused_500|done]].
  apply writeFile_written in Hw as [-> Hallowed].
  left. exists l, kept. repeat split; try done.
  pose proof (sublist_length _ _ (array_filter_sublist _ _ _ Hf)). lia.
Qed.

End all_or_nothing.

(** X1.  In [server.js], the three article routes are all or nothing, on
    every request and every disk: either the answer is the success of the
    route and the disk is the one where the articles file, and nothing
    else, has been replaced by the new list (the stored list with the new
    article at its end; with the record at the matched position replaced;
    without the records the filter dropped, at least one), or the answer is
    a 400, 401, 404 or 500 and the disk is unchanged. *)
Theorem Main_articles_all_or_nothing `{!Builtins} (now : Z) (req : request) (d : disk) :
  ((Main.post_articles now req d
    = (created,
       written Main.ARTICLES_FILE
         (JArr (collection Main.ARTICLES_FILE d ++ [new_article now req])) d)
    ∧ Main.ARTICLES_FILE ∉ denied d)
   ∨ (refused (Main.post_articles now req d).1 ∧ (Main.post_articles now req d).2 = d))
  ∧ ((∃ z l i a,
        parseInt (params_id req) = Int z
        ∧ holds Main.ARTICLES_FILE l d
        ∧ l !! i = Some a ∧ id_of a = Some (JNum z)
        ∧ Main.put_articles req d
          = (modified, written Main.ARTICLES_FILE (JArr (<[i := new_article z req]> l)) d)
        ∧ Main.ARTICLES_FILE ∉ denied d)
     ∨ (refused (Main.put_articles req d).1 ∧ (Main.put_articles req d).2 = d))
  ∧ ((∃ l kept,
        holds Main.ARTICLES_FILE l d
        ∧ array_filter (id_is_not (parseInt (params_id req))) l = Ok kept
        ∧ length kept < length l
        ∧ Main.delete_articles req d = (deleted, written Main.ARTICLES_FILE (JArr kept) d)
        ∧ Main.ARTICLES_FILE ∉ denied d)
     ∨ (refused (Main.delete_articles req d).1 ∧ (Main.delete_articles req d).2 = d)).
Proof.
  split; [apply Main_create_all_or_nothing|].
  split; [apply Main_put_all_or_nothing|apply Main_delete_all_or_nothing].
Qed.

(** ** [server.js]: the life of an article *)

Section lifecycle.
Context `{!Builtins}.

Lemma holds_written path l d : holds path l (written path (JArr l) d).
Proof.
  unfold holds, written, readFile. cbn [files]. rewrite lookup_insert_eq. cbn.
  apply JSON_parse_stringify.
Qed.

Lemma written_written path v1 v2 d :
  written path v2 (written path v1 d) = written path v2 d.
Proof. unfold written. cbn [files denied]. by rewrite insert_insert_eq. Qed.

Lemma writeFile_is_written path v d :
  path ∉ denied d → writeFile path (JSON_stringify v) d = Some (written path v d).
Proof. intros Hw. by rewrite writeFile_allowed. Qed.

Lemma Main_create_written now req l d :
  authenticated (req_session req) = true →
  Main.validationResult (body req) = [] →
  holds Main.ARTICLES_FILE l d →
  Main.ARTICLES_FILE ∉ denied d →
  Main.post_articles now req d
  = (created, written Main.ARTICLES_FILE (JArr (l ++ [new_article now req])) d).
Proof.
  intros Hs Hv Hl Hw.
  unfold Main.post_articles, Main.requireLogin, Main.validated, Main.create_load,
    Main.create_save.
  unfold holds in Hl. rewrite Hs, Hv, Hl. by rewrite writeFile_is_written.
Qed.

Lemma filter_none_carries now (rs : list fields) :
  Forall (λ r, ¬ has_id now r) rs → filter (λ r, ¬ has_id now r) rs = rs.
Proof.
  induction 1 as [|r rs Hr _ IH]; [done|]. by rewrite filter_cons_True, IH.
Qed.

End lifecycle.

(** X2.  In [server.js], behind the gate and the validation, on a writable
    articles file that holds the records [rs], none of which carries the
    timestamp [now] as id: a create at [now] appends the article under the
    id [now]; an update sent to that id then replaces it by the attributes
    of the update alone; a delete sent to that id then leaves the file
    holding [rs] again; and the same delete once more is answered 404. *)
Theorem Main_article_lifecycle `{!Builtins} (rs : list fields) (now : Z)
    (post put del : request) (d : disk) :
  holds Main.ARTICLES_FILE (JObj <$> rs) d →
  Main.ARTICLES_FILE ∉ denied d →
  Forall (λ r, ¬ has_id now r) rs →
  authenticated (req_session post) = true → Main.validationResult (body post) = [] →
  authenticated (req_session put) = true → Main.validationResult (body put) = [] →
  parseInt (params_id put) = Int now →
  authenticated (req_session del) = true →
  parseInt (params_id del) = Int now →
  let d1 := written Main.ARTICLES_FILE (JArr (JObj <$> rs ++ [with_id now (body post)])) d in
  let d2 := written Main.ARTICLES_FILE (JArr (JObj <$> rs ++ [with_id now (body put)])) d in
  let d3 := written Main.ARTICLES_FILE (JArr (JObj <$> rs)) d in
  Main.post_articles now post d = (created, d1)
  ∧ Main.put_articles put d1 = (modified, d2)
  ∧ Main.delete_articles del d2 = (deleted, d3)
  ∧ holds Main.ARTICLES_FILE (JObj <$> rs) d3
  ∧ Main.delete_articles del d3 = (not_found, d3).
Proof.
  intros Hl Hw Hfresh Hs1 Hv1 Hs2 Hv2 Hid2 Hs3 Hid3. cbv zeta.
  assert (Hlast : ∀ attrs, has_id now (with_id now attrs)).
  { intros attrs. apply lookup_insert_eq. }
  split.
  { rewrite (Main_create_written now post _ d Hs1 Hv1 Hl Hw).
    by rewrite fmap_app. }
  split.
  { destruct (Main_put_by_id (rs ++ [with_id now (body post)]) now put
                (written Main.ARTICLES_FILE
                   (JArr (JObj <$> rs ++ [with_id now (body post)])) d)
                Hid2 Hs2 Hv2 (holds_written _ _ _) Hw) as [_ Hfound].
    destruct (Hfound (length rs)) as (d' & -> & Hwrite & _).
    - split.
      + exists (with_id now (body post)). split; [|apply Hlast].
        by rewrite lookup_app_r, Nat.sub_diag by lia.
      + intros j r' Hj Hr'. rewrite lookup_app_l in Hr' by done.
        by eapply (proj1 (list.Forall_forall _ _) Hfresh), list_elem_of_lookup_2.
    - f_equal. rewrite writeFile_is_written in Hwrite by done.
      injection Hwrite as <-. rewrite written_written. do 3 f_equal.
      replace (length rs) with (length rs + 0) by lia.
      by rewrite insert_app_r. }
  pose proof (Main_delete_by_id (rs ++ [with_id now (body put)]) now del
                (written Main.ARTICLES_FILE
                   (JArr (JObj <$> rs ++ [with_id now (body put)])) d)
                Hid3 Hs3 (holds_written _ _ _) Hw) as [_ Hdel].
  rewrite filter_app, (filter_none_carries now rs Hfresh) in Hdel.
  rewrite filter_cons_False, filter_nil, app_nil_r in Hdel by (intros Hno; apply Hno, Hlast).
  destruct Hdel as (d' & -> & Hwrite & Hread & Hagain);
    [rewrite length_app; cbn; lia|].
  rewrite writeFile_is_written in Hwrite by done. injection Hwrite as <-.
  rewrite written_written in Hagain |- *.
  split; [done|]. split; [apply holds_written|done].
Qed.

(** A tee created at 5, renamed, then deleted, on a disk that holds the
    empty list. *)
Lemma Main_article_lifecycle_witness :
  let d := written Main.ARTICLES_FILE (JArr []) empty_disk in
  Main.post_articles 5 (request_of admin tee "") d
  = (created, written Main.ARTICLES_FILE (JArr [JObj (with_id 5 tee)]) empty_disk)
  ∧ Main.delete_articles (request_of admin ∅ "5")
      (written Main.ARTICLES_FILE (JArr [JObj (with_id 5 tee_v2)]) empty_disk)
    = (deleted, d).
Proof.
  cbv zeta.
  destruct (@Main_article_lifecycle reference_builtins [] 5
              (request_of admin tee "") (request_of admin tee_v2 "5")
              (request_of admin ∅ "5") (written Main.ARTICLES_FILE (JArr []) empty_disk))
    as (Hpost & _ & Hdel & _).
  - apply holds_written.
  - apply not_elem_of_empty.
  - constructor.
  - reflexivity.
  - reflexivity.
  - reflexivity.
  - reflexivity.
  - reflexivity.
  - reflexivity.
  - reflexivity.
  - rewrite !written_written in Hpost, Hdel. split; [exact Hpost|exact Hdel].
Defined.

(** ** An articles file that is damaged *)



(** X4.  In [data/server.js], behind the gate and on a writable articles
    file: a create on a file that is missing, empty or does not parse
    answers 201 and leaves the file holding the new article alone; on a file
    that parses to a value that is not a list, the [push] throws inside the
    callback of [readFile], nobody answers and nothing is written. *)
Theorem Data_create_discards_damaged_file `{!Builtins} (now : Z) (req : request) (d : disk) :
  authenticated (req_session req) = true →
  Data.ARTICLES_FILE ∉ denied d →
  ((readFile Data.ARTICLES_FILE d = None
    ∨ readFile Data.ARTICLES_FILE d = Some ""
    ∨ (∃ data, readFile Data.ARTICLES_FILE d = Some data ∧ JSON_parse data = None)) →
   Data.post_articles now req d
   = (created, written Data.ARTICLES_FILE (JArr [new_article now req]) d))
  ∧ (∀ data v, readFile Data.ARTICLES_FILE d = Some data → data ≠ "" →
     JSON_parse data = Some v → (∀ l, v ≠ JArr l) →
     Data.post_articles now req d = (Uncaught, d)).
Proof.
  intros Hs Hw. unfold Data.post_articles, Data.requireLogin. rewrite Hs. split.
  - intros [Hread|[Hread|(data & Hread & Hparse)]]; rewrite Hread.
    + by rewrite writeFile_is_written.
    + cbn. by rewrite writeFile_is_written.
    + rewrite Hparse. destruct (String.eqb data ""); by rewrite writeFile_is_written.
  - intros data v Hread Hne Hparse Hnot. rewrite Hread, Hparse.
    apply String.eqb_neq in Hne. rewrite Hne.
    destruct v; try done. by destruct (Hnot l).
Qed.

(** A create on a disk without any file. *)
Lemma Data_create_discards_damaged_file_witness :
  Data.post_articles 5 (request_of admin tee "") empty_disk
  = (created, written Data.ARTICLES_FILE (JArr [JObj (with_id 5 tee)]) empty_disk).
Proof.
  exact (proj1 (@Data_create_discards_damaged_file reference_builtins 5
                  (request_of admin tee "") empty_disk eq_refl (not_elem_of_empty _))
           (or_introl eq_refl)).
Defined.

(** ** [server.js]: the upload of a background image *)

Section upload.
Context `{!Builtins}.




End upload.


(** ** [server.js]: login, check-session, logout *)

(** X6.  In [server.js], [GET /check-session] tells what the gate does:
    it answers 200 on the requests the gate lets through and 401 on those
    the gate answers 401.  After a login attempt it answers 200 exactly
    when the attempt was answered 200 or the session was authenticated
    before; after a logout it answers 401 and the gate is closed, whatever
    the session was. *)
Theorem Main_session_lifecycle (secret : string) (attempt req : request) :
  (MainSession.check_session req = SendStatus 200
   ∧ (∀ next d, Main.requireLogin next req d = next req d)
   ∨ MainSession.check_session req = SendStatus 401
     ∧ (∀ next d, Main.requireLogin next req d
                  = (Json 401 (obj1 "error" "Non authentifié"), d)))
  ∧ (MainSession.check_session (on_session (Main.login secret attempt).2 req) = SendStatus 200
     ↔ (Main.login secret attempt).1 = SendStatus 200
       ∨ authenticated (req_session attempt) = true)
  ∧ MainSession.check_session (on_session (MainSession.logout attempt).2 req) = SendStatus 401
  ∧ MainSession.check_session
      (on_session (MainSession.logout (on_session (Main.login secret attempt).2 req)).2 req)
    = SendStatus 401.
Proof.
  split; [|split; [|done]].
  - unfold MainSession.check_session, Main.requireLogin.
    destruct (authenticated (req_session req)); [left|right]; done.
  - unfold MainSession.check_session, Main.login, on_session. cbn [req_session].
    destruct (negb (truthy (body attempt !! "password"))); cbn [snd fst].
    { destruct (authenticated (req_session attempt)); split; try done.
      - by right.
      - by intros [|]. }
    destruct (strict_eq_string (body attempt !! "password") secret); cbn [snd fst authenticated].
    { split; [by left|done]. }
    destruct (authenticated (req_session attempt)); split; try done.
    + by right.
    + by intros [|].
Qed.

(** ** [uploads/PIPOU/server.js]: delete by position *)

Section position.
Context `{!Builtins}.

Lemma holds_read path l d :
  holds path l d → ∃ data, readFile path d = Some data ∧ JSON_parse data = Some (JArr l).
Proof. unfold holds. intros Hl. by apply bind_Some in Hl. Qed.

Lemma in_range_list i l :
  Legacy.in_range (Int i) (JArr l) = Ok (bool_decide (0 ≤ i < Z.of_nat (length l))%Z).
Proof.
  unfold Legacy.in_range. destruct (i <? 0)%Z eqn:Hneg.
  - apply Z.ltb_lt in Hneg. rewrite bool_decide_eq_false_2; [done|lia].
  - apply Z.ltb_ge in Hneg. cbn [Legacy.js_length]. rewrite ToNumber_num. f_equal.
    destruct (i <? Z.of_nat (length l))%Z eqn:Hlt.
    + apply Z.ltb_lt in Hlt. rewrite bool_decide_eq_true_2; [done|lia].
    + apply Z.ltb_ge in Hlt. rewrite bool_decide_eq_false_2; [done|lia].
Qed.

Lemma Legacy_delete_list req d l i :
  parseInt (params_id req) = Int i →
  holds Legacy.ARTICLES_FILE l d →
  Legacy.ARTICLES_FILE ∉ denied d →
  Legacy.delete_articles req d
  = if bool_decide (0 ≤ i < Z.of_nat (length l))%Z
    then (deleted, written Legacy.ARTICLES_FILE (JArr (delete (Z.to_nat i) l)) d)
    else (not_found, d).
Proof.
  intros Hid Hl Hw. destruct (holds_read _ _ _ Hl) as (data & Hread & Hparse).
  unfold Legacy.delete_articles. rewrite Hid, Hread, Hparse, in_range_list.
  case_bool_decide; [|done]. unfold Legacy.splice1. by rewrite writeFile_is_written.
Qed.

Lemma delete_last {A} (l : list A) x : delete (length l) (l ++ [x]) = l.
Proof. induction l as [|a l IH]; [done|]. cbn. f_equal. exact IH. Qed.


Lemma Legacy_create_written req l d :
  JSON_parse "" = None →
  holds Legacy.ARTICLES_FILE l d →
  Legacy.ARTICLES_FILE ∉ denied d →
  Legacy.post_articles req d
  = (created, written Legacy.ARTICLES_FILE (JArr (l ++ [JObj (body req)])) d).
Proof.
  intros Hempty Hl Hw. destruct (holds_read _ _ _ Hl) as (data & Hread & Hparse).
  unfold Legacy.post_articles. rewrite Hread.
  destruct (String.eqb data "") eqn:Hdata.
  { apply String.eqb_eq in Hdata. congruence. }
  rewrite Hparse. by rewrite writeFile_is_written.
Qed.

End position.

(** X7.  In [uploads/PIPOU/server.js], on a writable articles file that
    holds the list [l], [DELETE /articles/:index] addresses a position: a
    parameter that is no number, negative, or at least the length of the
    list is answered 404 with nothing written; a position of the list is
    answered 200 and the file then holds the list without the element at
    that position, those after it having moved down by one, so that the
    same request sent again, when an element follows, removes that
    element too. *)
Theorem Legacy_delete_by_position `{!Builtins} (l : list json) (req : request) (d : disk) :
  holds Legacy.ARTICLES_FILE l d →
  Legacy.ARTICLES_FILE ∉ denied d →
  (parseInt (params_id req) = NaN → Legacy.delete_articles req d = (not_found, d))
  ∧ ∀ index, parseInt (params_id req) = Int index →
      ((index < 0 ∨ Z.of_nat (length l) ≤ index)%Z →
       Legacy.delete_articles req d = (not_found, d))
      ∧ ((0 ≤ index < Z.of_nat (length l))%Z →
         let i := Z.to_nat index in
         let d' := written Legacy.ARTICLES_FILE (JArr (delete i l)) d in
         Legacy.delete_articles req d = (deleted, d')
         ∧ holds Legacy.ARTICLES_FILE (delete i l) d'
         ∧ S (length (delete i l)) = length l
         ∧ (∀ j, j < i → delete i l !! j = l !! j)
         ∧ (∀ j, i ≤ j → delete i l !! j = l !! S j)
         ∧ (S i < length l →
            Legacy.delete_articles req d'
            = (deleted,
               written Legacy.ARTICLES_FILE (JArr (delete i (delete i l))) d))).
Proof.
  intros Hl Hw. split.
  - intros Hid. destruct (holds_read _ _ _ Hl) as (data & Hread & Hparse).
    unfold Legacy.delete_articles. by rewrite Hid, Hread, Hparse.
  - intros index Hid. split.
    + intros Hout. rewrite (Legacy_delete_list req d l index Hid Hl Hw).
      rewrite bool_decide_eq_false_2; [done|lia].
    + intros Hin. cbv zeta.
      assert (Hlen : S (length (delete (Z.to_nat index) l)) = length l).
      { rewrite length_delete; [lia|]. apply lookup_lt_is_Some. lia. }
      split; [|split; [apply holds_written|split; [done|split; [|split]]]].
      * rewrite (Legacy_delete_list req d l index Hid Hl Hw).
        rewrite bool_decide_eq_true_2; [done|lia].
      * intros j Hj. by apply list_lookup_delete_lt.
      * intros j Hj. by apply list_lookup_delete_ge.
      * intros Hnext.
        rewrite (Legacy_delete_list req _ (delete (Z.to_nat index) l) index Hid
                   (holds_written _ _ _) Hw).
        rewrite bool_decide_eq_true_2 by lia. by rewrite written_written.
Qed.

(** Position 0 of a list of two: the second record stays. *)
Lemma Legacy_delete_by_position_witness :
  Legacy.delete_articles (request_of anonymous ∅ "0")
    (written Legacy.ARTICLES_FILE (JArr [JObj tee; JObj tee_v2]) empty_disk)
  = (deleted, written Legacy.ARTICLES_FILE (JArr [JObj tee_v2]) empty_disk).
Proof.
  destruct (@Legacy_delete_by_position reference_builtins [JObj tee; JObj tee_v2]
              (request_of anonymous ∅ "0")
              (written Legacy.ARTICLES_FILE (JArr [JObj tee; JObj tee_v2]) empty_disk)
              (holds_written _ _ _) (not_elem_of_empty _)) as [_ Hpos].
  destruct (Hpos 0%Z eq_refl) as [_ Hin].
  destruct (Hin (conj (Z.le_refl 0) eq_refl)) as [Hdel _].
  rewrite written_written in Hdel. exact Hdel.
Defined.

(** X8.  In [uploads/PIPOU/server.js], with a [JSON.parse] that refuses
    the empty text, on a writable articles file that holds the list [l]:
    a create answers 201 and appends the body as it came, without an id,
    at position [length l]; a delete sent to that position then answers
    200 and the file holds [l] again. *)
Theorem Legacy_create_then_delete `{!Builtins} (l : list json) (post del : request)
    (d : disk) :
  JSON_parse "" = None →
  holds Legacy.ARTICLES_FILE l d →
  Legacy.ARTICLES_FILE ∉ denied d →
  parseInt (params_id del) = Int (Z.of_nat (length l)) →
  let d1 := written Legacy.ARTICLES_FILE (JArr (l ++ [JObj (body post)])) d in
  Legacy.post_articles post d = (created, d1)
  ∧ Legacy.delete_articles del d1 = (deleted, written Legacy.ARTICLES_FILE (JArr l) d).
Proof.
  intros Hempty Hl Hw Hid. cbv zeta. split; [by apply Legacy_create_written|].
  rewrite (Legacy_delete_list del _ (l ++ [JObj (body post)]) _ Hid (holds_written _ _ _) Hw).
  rewrite bool_decide_eq_true_2 by (rewrite length_app; cbn; lia).
  by rewrite Nat2Z.id, delete_last, written_written.
Qed.

(** A tee appended to a list of one and removed from position 1. *)
Lemma Legacy_create_then_delete_witness :
  let d := written Legacy.ARTICLES_FILE (JArr [JObj tee]) empty_disk in
  Legacy.post_articles (request_of anonymous tee_v2 "") d
  = (created, written Legacy.ARTICLES_FILE (JArr [JObj tee; JObj tee_v2]) empty_disk)
  ∧ Legacy.delete_articles (request_of anonymous ∅ "1")
      (written Legacy.ARTICLES_FILE (JArr [JObj tee; JObj tee_v2]) empty_disk)
    = (deleted, d).
Proof.
  cbv zeta.
  destruct (@Legacy_create_then_delete reference_builtins [JObj tee]
              (request_of anonymous tee_v2 "") (request_of anonymous ∅ "1")
              (written Legacy.ARTICLES_FILE (JArr [JObj tee]) empty_disk)
              eq_refl (holds_written _ _ _) (not_elem_of_empty _) eq_refl)
    as [Hpost Hdel].
  rewrite !written_written in Hpost, Hdel. split; [exact Hpost|exact Hdel].
Defined.

(** ** [data/server.js]: a create, then the list *)



(** ** Which files a route writes *)

Section frame.
Context `{!Builtins}.

Lemma within_refl paths d : within paths d d.
Proof. by split. Qed.

Lemma within_write paths path data d d' :
  path ∈ paths → writeFile path data d = Some d' → within paths d d'.
Proof.
  intros Hin Hwrite. unfold writeFile in Hwrite. case_decide; [done|].
  injection Hwrite as <-. split; [done|]. intros p Hp. unfold readFile. cbn [files].
  apply lookup_insert_ne. by intros ->.
Qed.

Lemma within_trans paths d1 d2 d3 : within paths d1 d2 → within paths d2 d3 → within paths d1 d3.
Proof.
  intros [Hd12 Hf12] [Hd23 Hf23]. split; [congruence|].
  intros p Hp. by rewrite Hf23, Hf12.
Qed.

Lemma within_blob paths dest f d d' :
  (dest +:+ "/" +:+ filename f) ∈ paths → store_blob dest f d = Some d' → within paths d d'.
Proof. apply within_write. Qed.

End frame.

Ltac frame_step :=
  first
    [ apply within_refl
    | eapply within_write; [|eassumption]; by repeat constructor
    | eapply within_blob; [|eassumption]; by repeat constructor
    | eapply within_trans;
      [eapply within_blob; [|eassumption]; by repeat constructor
      |eapply within_write; [|eassumption]; by repeat constructor] ].

Ltac frame :=
  intros req d; unfold upload_paths; repeat case_match; simplify_eq; cbn [snd];
  frame_step.

(** X10.  Every route of [server.js], [data/server.js] and
    [uploads/PIPOU/server.js], and the two read routes of the unnamed server,
    writes to its own files at most, and changes no permission: the article routes to the articles
    file, the write of the setting document to [fond.json], the upload to
    [fond.json] and to the blob it stores, the two read routes to nothing.
    The articles file is none of the files an upload may write. *)
Theorem routes_write_their_own_files `{!Builtins} (now : Z) :
  (writes_within (λ _, [Main.ARTICLES_FILE]) (Main.post_articles now)
   ∧ writes_within (λ _, [Main.ARTICLES_FILE]) Main.put_articles
   ∧ writes_within (λ _, [Main.ARTICLES_FILE]) Main.delete_articles
   ∧ writes_within (λ _, [Main.FOND_FILE]) Main.post_fond
   ∧ writes_within (upload_paths Main.fondsPath Main.FOND_FILE) Main.upload_fond
   ∧ ∀ req, Main.ARTICLES_FILE ∉ upload_paths Main.fondsPath Main.FOND_FILE req)
  ∧ (writes_within (λ _, []) Data.get_articles
     ∧ writes_within (λ _, []) Data.get_fond
     ∧ writes_within (λ _, [Data.ARTICLES_FILE]) (Data.post_articles now)
     ∧ writes_within (λ _, [Data.ARTICLES_FILE]) Data.put_articles
     ∧ writes_within (λ _, [Data.ARTICLES_FILE]) Data.delete_articles
     ∧ writes_within (λ _, [Data.FOND_FILE]) Data.post_fond
     ∧ writes_within (upload_paths Data.fondsPath Data.FOND_FILE) Data.upload_fond
     ∧ ∀ req, Data.ARTICLES_FILE ∉ upload_paths Data.fondsPath Data.FOND_FILE req)
  ∧ (writes_within (λ _, [Legacy.ARTICLES_FILE]) Legacy.post_articles
     ∧ writes_within (λ _, [Legacy.ARTICLES_FILE]) Legacy.put_articles
     ∧ writes_within (λ _, [Legacy.ARTICLES_FILE]) Legacy.delete_articles
     ∧ writes_within (λ _, [Legacy.FOND_FILE]) Legacy.post_fond
     ∧ writes_within (upload_paths Legacy.fondsPath Legacy.FOND_FILE) Legacy.upload_fond
     ∧ ∀ req, Legacy.ARTICLES_FILE ∉ upload_paths Legacy.fondsPath Legacy.FOND_FILE req)
  ∧ writes_within (λ _, []) Part000.get_articles
  ∧ writes_within (λ _, []) Part000.get_fond.
Proof.
  assert (Hapart : ∀ dest file articles req,
            articles ≠ file → (∀ name, articles ≠ dest +:+ "/" +:+ name) →
            articles ∉ upload_paths dest file req).
  { intros dest file articles req Hfile Hblob. unfold upload_paths.
    destruct (fond req); rewrite !not_elem_of_cons; repeat split; try done.
    - apply not_elem_of_nil.
    - apply not_elem_of_nil. }
  split; [|split; [|split; [|split]]].
  - split; [|split; [|split; [|split; [|split]]]].
    + unfold Main.post_articles, Main.requireLogin, Main.validated, Main.create_save. frame.
    + unfold Main.put_articles, Main.requireLogin, Main.validated. frame.
    + unfold Main.delete_articles, Main.requireLogin. frame.
    + unfold Main.post_fond, Main.requireLogin. frame.
    + unfold Main.upload_fond, Main.requireLogin, Main.upload_single. frame.
    + intros req. by apply Hapart.
  - split; [|split; [|split; [|split; [|split; [|split; [|split]]]]]].
    + unfold Data.get_articles, Data.requireLogin. frame.
    + unfold Data.get_fond, Data.requireLogin. frame.
    + unfold Data.post_articles, Data.requireLogin. frame.
    + unfold Data.put_articles, Data.requireLogin. frame.
    + unfold Data.delete_articles, Data.requireLogin. frame.
    + unfold Data.post_fond, Data.requireLogin. frame.
    + unfold Data.upload_fond, Data.requireLogin, Data.upload_single. frame.
    + intros req. by apply Hapart.
  - split; [|split; [|split; [|split; [|split]]]].
    + unfold Legacy.post_articles. frame.
    + unfold Legacy.put_articles. frame.
    + unfold Legacy.delete_articles. frame.
    + unfold Legacy.post_fond. frame.
    + unfold Legacy.upload_fond. frame.
    + intros req. by apply Hapart.
  - unfold Part000.get_articles, Part000.requireLogin. frame.
  - unfold Part000.get_fond, Part000.requireLogin. frame.
Qed.

(** ** [server.js]: the generated description *)

Section description.

Lemma length_append x s : String.length (x +:+ s) = String.length x + String.length s.
Proof.
  induction x as [|a x IH]; [done|].
  change (S (String.length (x +:+ s)) = S (String.length x + String.length s)).
  by rewrite IH.
Qed.

Lemma append_inj_r s x y : x +:+ s = y +:+ s → x = y.
Proof.
  revert y. induction x as [|a x IH]; intros [|b y] Heq; [done| | |].
  - apply (f_equal String.length) in Heq. rewrite !length_append in Heq. cbn in Heq. lia.
  - apply (f_equal String.length) in Heq. rewrite !length_append in Heq. cbn in Heq. lia.
  - change (String a (x +:+ s) = String b (y +:+ s)) in Heq.
    injection Heq as -> Heq. f_equal. by apply IH.
Qed.

Lemma description_inj n n' : MainSession.description n = MainSession.description n' → n = n'.
Proof.
  unfold MainSession.description. intros Heq.
  apply String.app_inj in Heq. apply String.app_inj in Heq.
  by apply append_inj_r in Heq.
Qed.

End description.

(** X11.  [GET /generate-description] of [server.js] never writes.  It
    answers 200 exactly when the session is authenticated and the
    parameter [nom] is a string that is not empty; the description then
    holds the name between double quotes, and two names that differ give
    two descriptions that differ.  Behind the gate, every other parameter
    (missing, empty, an array or an object of the query parser) is answered
    400 [Nom du produit requis]. *)
Theorem Main_generate_description (nom : option json) (req : request) (d : disk) :
  (MainSession.generate_description nom req d).2 = d
  ∧ (status_of (MainSession.generate_description nom req d).1 = Some 200
     ↔ authenticated (req_session req) = true ∧ ∃ n, nom = Some (JStr n) ∧ n ≠ "")
  ∧ (∀ n, authenticated (req_session req) = true → nom = Some (JStr n) → n ≠ "" →
     (MainSession.generate_description nom req d).1
     = Json 200 (obj1 "description"
         ("Le produit " +:+ MainSession.quote +:+ n +:+ MainSession.quote +:+
          " allie style, originalité et confort. Un indispensable pour affirmer ton look.")))
  ∧ (authenticated (req_session req) = true →
     (∀ n, nom = Some (JStr n) → n = "") →
     (MainSession.generate_description nom req d).1
     = Json 400 (obj1 "error" "Nom du produit requis"))
  ∧ ∀ n n', MainSession.description n = MainSession.description n' → n = n'.
Proof.
  assert (Hcases :
    (∃ n, nom = Some (JStr n) ∧ n ≠ ""
          ∧ negb (truthy nom) || MainSession.not_a_string nom = false)
    ∨ ((∀ n, nom = Some (JStr n) → n = "")
       ∧ negb (truthy nom) || MainSession.not_a_string nom = true)).
  { destruct nom as [[|b|z|n|l|m]|]; cbn.
    all: try (right; split; [done|]; by rewrite ?orb_true_r).
    destruct (String.eqb n "") eqn:Hn.
    - apply String.eqb_eq in Hn. right. split; [|done]. by intros n' [= <-].
    - apply String.eqb_neq in Hn. left. by exists n. }
  unfold MainSession.generate_description, Main.requireLogin.
  split; [|split; [|split; [|split]]].
  - destruct (authenticated (req_session req)); [|done].
    destruct Hcases as [(n & -> & _ & ->)|[_ ->]]; done.
  - destruct (authenticated (req_session req)).
    2:{ split; [done|]. by intros [? _]. }
    destruct Hcases as [(n & -> & Hne & ->)|[Hnot ->]].
    + split; [|done]. intros _. split; [done|]. by exists n.
    + split; [done|]. intros (_ & n & Hn & Hne). destruct (Hne (Hnot n Hn)).
  - intros n -> Hn Hne. destruct Hcases as [(n' & -> & _ & ->)|[Hnot _]].
    + by injection Hn as ->.
    + destruct (Hne (Hnot n Hn)).
  - intros -> Hnot. destruct Hcases as [(n & Hn & Hne & _)|[_ ->]]; [|done].
    destruct (Hne (Hnot n Hn)).
  - apply description_inj.
Qed.

(** ** [server.js]: the validation of an article *)

(** X12.  In [server.js], the body of a create or an update passes the
    validation exactly when [nom] and [categorie] are strings that are not
    empty, [prix] passes [isFloat({ gt: 0 })] and [description] is missing
    or a string.  Behind the gate, a body that does not pass is answered 400
    by both routes before the disk is looked at: whatever the articles file
    holds and whatever the id, nothing is read into the answer and nothing
    is written. *)
Theorem Main_validation `{!Builtins} (now : Z) (req : request) (d : disk) :
  (Main.validationResult (body req) = []
   ↔ (∃ n, body req !! "nom" = Some (JStr n) ∧ n ≠ "")
     ∧ isFloat_gt0 (body req !! "prix") = true
     ∧ (body req !! "description" = None ∨ ∃ s, body req !! "description" = Some (JStr s))
     ∧ (∃ c, body req !! "categorie" = Some (JStr c) ∧ c ≠ ""))
  ∧ (authenticated (req_session req) = true →
     Main.validationResult (body req) ≠ [] →
     ∃ errors, errors ≠ []
       ∧ Main.post_articles now req d = (Json 400 (JObj {[ "errors" := JArr errors ]}), d)
       ∧ Main.put_articles req d = (Json 400 (JObj {[ "errors" := JArr errors ]}), d)).
Proof.
  split.
  - assert (Hstr : ∀ v, Main.isString_notEmpty v = true ↔ ∃ n, v = Some (JStr n) ∧ n ≠ "").
    { intros [[| | |n| |]|]; cbn; try (split; [done|]; intros (n' & Hn' & _); done).
      rewrite negb_true_iff, String.eqb_neq. split.
      - intros Hn. by exists n.
      - by intros (n' & [= <-] & Hn'). }
    assert (Hopt : ∀ v, Main.optional_isString v = true ↔ v = None ∨ ∃ s, v = Some (JStr s)).
    { intros [[| | |n| |]|]; cbn; split; try done.
      all: try (intros [|[s Hs]]; done).
      - intros _. right. by exists n.
      - intros _. by left. }
    rewrite <- !Hstr, <- Hopt. unfold Main.validationResult.
    destruct (Main.isString_notEmpty (body req !! "nom")),
      (isFloat_gt0 (body req !! "prix")),
      (Main.optional_isString (body req !! "description")),
      (Main.isString_notEmpty (body req !! "categorie")); cbn; split; try done.
    all: by intros (? & ? & ? & ?).
  - intros Hs Hv. exists (JStr <$> Main.validationResult (body req)). split.
    { destruct (Main.validationResult (body req)); done. }
    unfold Main.post_articles, Main.put_articles, Main.requireLogin, Main.validated.
    rewrite Hs. by destruct (Main.validationResult (body req)).
Qed.

(** ** [data/server.js]: an answer of success and the write go together *)

Section all_or_nothing_data.
Context `{!Builtins}.

Lemma failed_status r s : status_of r = s → s ≠ Some 200 → s ≠ Some 201 → failed r.
Proof.
  intros <- H200 H201. unfold failed. rewrite !not_elem_of_cons.
  split; [done|]. split; [done|]. apply not_elem_of_nil.
Qed.

Lemma Data_create_all_or_nothing now req d :
  (∃ l, (l = [] ∨ holds Data.ARTICLES_FILE l d)
        ∧ Data.post_articles now req d
          = (created, written Data.ARTICLES_FILE (JArr (l ++ [new_article now req])) d)
        ∧ Data.ARTICLES_FILE ∉ denied d)
  ∨ (failed (Data.post_articles now req d).1 ∧ (Data.post_articles now req d).2 = d).
Proof.
  unfold Data.post_articles, Data.requireLogin.
  destruct (authenticated (req_session req));
    [|right; split; [by eapply failed_status|done]].
  cbv zeta.
  lazymatch goal with
  | |- context [match ?a with
                | JNull => _ | JBool _ => _ | JNum _ => _ | JStr _ => _
                | JArr _ => _ | JObj _ => _
                end] => set (articles := a)
  end.
  assert (Hlist : ∀ l, articles = JArr l → l = [] ∨ holds Data.ARTICLES_FILE l d).
  { intros l. unfold articles, holds.
    destruct (readFile Data.ARTICLES_FILE d) as [data|]; [|intros [= <-]; by left].
    destruct (String.eqb data ""); [intros [= <-]; by left|]. cbn [mbind option_bind].
    destruct (JSON_parse data); [intros ->; by right|intros [= <-]; by left]. }
  destruct articles as [| | | |l|]; try (right; split; [by eapply failed_status|done]).
  destruct (writeFile _ _ d) as [d'|] eqn:Hw;
    [|right; split; [by eapply failed_status|done]].
  apply writeFile_written in Hw as [-> Hallowed].
  left. exists l. split; [by apply Hlist|done].
Qed.

Lemma Data_put_all_or_nothing req d :
  (∃ z l i a,
     parseInt (params_id req) = Int z
     ∧ holds Data.ARTICLES_FILE l d
     ∧ l !! i = Some a ∧ id_of a = Some (JNum z)
     ∧ Data.put_articles req d
       = (modified, written Data.ARTICLES_FILE (JArr (<[i := new_article z req]> l)) d)
     ∧ Data.ARTICLES_FILE ∉ denied d)
  ∨ (failed (Data.put_articles req d).1 ∧ (Data.put_articles req d).2 = d).
Proof.
  unfold Data.put_articles, Data.requireLogin, holds.
  destruct (authenticated (req_session req));
    [|right; split; [by eapply failed_status|done]].
  destruct (readFile Data.ARTICLES_FILE d ≫= JSON_parse) as [[| | | |l|]|];
    try (right; split; [by eapply failed_status|done]).
  destruct (findIndex _ l) as [[i|]|] eqn:Hfind;
    try (right; split; [by eapply failed_status|done]).
  apply findIndex_Some in Hfind as (a & Ha & Hid).
  apply id_is_true_Int in Hid as (z & Hz & Hid). rewrite Hz. cbn [number_json].
  destruct (writeFile _ _ d) as [d'|] eqn:Hw;
    [|right; split; [by eapply failed_status|done]].
  apply writeFile_written in Hw as [-> Hallowed].
  left. by exists z, l, i, a.
Qed.

Lemma Data_delete_all_or_nothing req d :
  (∃ l kept,
     holds Data.ARTICLES_FILE l d
     ∧ array_filter (id_is_not (parseInt (params_id req))) l = Ok kept
     ∧ length kept < length l
     ∧ Data.delete_articles req d = (deleted, written Data.ARTICLES_FILE (JArr kept) d)
     ∧ Data.ARTICLES_FILE ∉ denied d)
  ∨ (failed (Data.delete_articles req d).1 ∧ (Data.delete_articles req d).2 = d).
Proof.
  unfold Data.delete_articles, Data.requireLogin, holds.
  destruct (authenticated (req_session req));
    [|right; split; [by eapply failed_status|done]].
  destruct (readFile Data.ARTICLES_FILE d) as [data|];
    [|right; split; [by eapply failed_status|done]].
  cbn [mbind option_bind].
  destruct (JSON_parse data) as [[| | | |l|]|];
    try (right; split; [by eapply failed_status|done]).
  destruct (array_filter _ l) as [kept|] eqn:Hf;
    [|right; split; [by eapply failed_status|done]].
  destruct (Nat.eqb_spec (length kept) (length l)) as [Heq|Hne];
    [right; split; [by eapply failed_status|done]|].
  destruct (writeFile _ _ d) as [d'|] eqn:Hw;
    [|right; split; [by eapply failed_status|done]].
  apply writeFile_written in Hw as [-> Hallowed].
  left. exists l, kept. repeat split; try done.
  pose proof (sublist_length _ _ (array_filter_sublist _ _ _ Hf)). lia.
Qed.

End all_or_nothing_data.

(** X13.  In [data/server.js], the three article routes are all or
    nothing, on every request and every disk: either the answer is the
    success of the route and the articles file, and nothing else, has been
    replaced by the new list (the new article after the stored list, or
    alone when the file gave no list; the record at the matched position
    replaced; the records the filter dropped, at least one, gone), or there
    is no answer of success (a redirect to the login page, a 404, a 500, or
    no answer when an exception left a callback) and the disk is
    unchanged. *)
Theorem Data_articles_all_or_nothing `{!Builtins} (now : Z) (req : request) (d : disk) :
  ((∃ l, (l = [] ∨ holds Data.ARTICLES_FILE l d)
         ∧ Data.post_articles now req d
           = (created, written Data.ARTICLES_FILE (JArr (l ++ [new_article now req])) d)
         ∧ Data.ARTICLES_FILE ∉ denied d)
   ∨ (failed (Data.post_articles now req d).1 ∧ (Data.post_articles now req d).2 = d))
  ∧ ((∃ z l i a,
        parseInt (params_id req) = Int z
        ∧ holds Data.ARTICLES_FILE l d
        ∧ l !! i = Some a ∧ id_of a = Some (JNum z)
        ∧ Data.put_articles req d
          = (modified, written Data.ARTICLES_FILE (JArr (<[i := new_article z req]> l)) d)
        ∧ Data.ARTICLES_FILE ∉ denied d)
     ∨ (failed (Data.put_articles req d).1 ∧ (Data.put_articles req d).2 = d))
  ∧ ((∃ l kept,
        holds Data.ARTICLES_FILE l d
        ∧ array_filter (id_is_not (parseInt (params_id req))) l = Ok kept
        ∧ length kept < length l
        ∧ Data.delete_articles req d = (deleted, written Data.ARTICLES_FILE (JArr kept) d)
        ∧ Data.ARTICLES_FILE ∉ denied d)
     ∨ (failed (Data.delete_articles req d).1 ∧ (Data.delete_articles req d).2 = d)).
Proof.
  split; [apply Data_create_all_or_nothing|].
  split; [apply Data_put_all_or_nothing|apply Data_delete_all_or_nothing].
Qed.

(** ** [server.js]: the setting document is replaced as a whole *)

Section fond.
Context `{!Builtins}.



Lemma holds_document path v d : readFile path (written path v d) ≫= JSON_parse = Some v.
Proof.
  unfold written, readFile. cbn [files]. rewrite lookup_insert_eq. cbn.
  apply JSON_parse_stringify.
Qed.

End fond.



(** ** The two list routes, side by side *)

(** X15.  [GET /articles.json] of [data/server.js] and of the unnamed
    server read the same file and never write.  On a request that is not
    authenticated the first redirects to the login page and the second
    answers 401; on a missing file both answer 500; on a file that parses,
    an empty file reading as [[]], both answer 200 with the same value; on a
    file that does not parse the unnamed server answers 500 whereas in
    [data/server.js] the exception leaves the callback of [readFile] and
    nobody answers. *)
Theorem list_routes_compared `{!Builtins} (req : request) (d : disk) :
  (Data.get_articles req d).2 = d
  ∧ (Part000.get_articles req d).2 = d
  ∧ ((authenticated (req_session req) = false
      ∧ (Data.get_articles req d).1 = Redirect "/login.html"
      ∧ (Part000.get_articles req d).1 = Json 401 (obj1 "error" "Non authentifié"))
     ∨ (readFile "articles.json" d = None
        ∧ (Data.get_articles req d).1 = Send 500 "Erreur lecture articles"
        ∧ (Part000.get_articles req d).1 = Json 500 (obj1 "error" "Erreur lecture articles"))
     ∨ (∃ data v, readFile "articles.json" d = Some data
        ∧ JSON_parse (if String.eqb data "" then "[]" else data) = Some v
        ∧ (Data.get_articles req d).1 = Json 200 v
        ∧ (Part000.get_articles req d).1 = Json 200 v)
     ∨ (∃ data, readFile "articles.json" d = Some data
        ∧ data ≠ "" ∧ JSON_parse data = None
        ∧ (Data.get_articles req d).1 = Uncaught
        ∧ (Part000.get_articles req d).1 = Json 500 (obj1 "error" "Erreur lecture articles"))).
Proof.
  unfold Data.get_articles, Part000.get_articles, Data.requireLogin, Part000.requireLogin,
    Data.ARTICLES_FILE, Part000.ARTICLES_FILE, or_brackets.
  destruct (authenticated (req_session req)); [|split; [done|split; [done|by left]]].
  destruct (readFile "articles.json" d) as [data|];
    [|split; [done|split; [done|right; by left]]].
  destruct (String.eqb data "") eqn:Hdata.
  - rewrite JSON_parse_brackets. split; [done|]. split; [done|].
    right; right; left. exists data, (JArr []). by rewrite Hdata, JSON_parse_brackets.
  - apply String.eqb_neq in Hdata.
    destruct (JSON_parse data) as [v|] eqn:Hparse; (split; [done|split; [done|]]).
    + right; right; left. exists data, v. apply String.eqb_neq in Hdata. by rewrite Hdata.
    + right; right; right. by exists data.
Qed.

(** ** [uploads/PIPOU/server.js]: an articles file that holds an object *)

(** X16.  [uploads/PIPOU/server.js] does not check that the articles file
    holds a list.  When it holds an object whose [length] converts to the
    number [n], a position from 0 to [n - 1] passes the bounds check of
    both routes: [PUT /articles/:index] answers 200 and writes the object
    with the body under the property named after the position, whereas
    [DELETE /articles/:index] finds no [splice], the exception leaves the
    callback of [readFile], nobody answers and nothing is written. *)
Theorem Legacy_object_in_articles_file `{!Builtins} (m : fields) (len : json) (n i : Z)
    (req : request) (d : disk) :
  readFile Legacy.ARTICLES_FILE d ≫= JSON_parse = Some (JObj m) →
  m !! "length" = Some len →
  ToNumber len = Int n →
  parseInt (params_id req) = Int i →
  (0 ≤ i < n)%Z →
  Legacy.ARTICLES_FILE ∉ denied d →
  Legacy.put_articles req d
  = (modified, written Legacy.ARTICLES_FILE (JObj (<[pretty i := JObj (body req)]> m)) d)
  ∧ Legacy.delete_articles req d = (Uncaught, d).
Proof.
  intros Hread Hlen Hnum Hid Hin Hw.
  assert (Hrange : Legacy.in_range (Int i) (JObj m) = Ok true).
  { unfold Legacy.in_range. cbn [Legacy.js_length]. rewrite Hlen, Hnum.
    destruct (i <? 0)%Z eqn:Hneg; [apply Z.ltb_lt in Hneg; lia|].
    f_equal. apply Z.ltb_lt. lia. }
  split.
  - unfold Legacy.put_articles. rewrite Hread, Hid, Hrange. cbn [Legacy.assign_index].
    by rewrite writeFile_is_written.
  - apply bind_Some in Hread as (data & Hdata & Hparse).
    unfold Legacy.delete_articles. by rewrite Hid, Hdata, Hparse, Hrange.
Qed.

(** The object [{ length: 3 }] in the file, and position 1. *)
Lemma Legacy_object_in_articles_file_witness :
  let d := written Legacy.ARTICLES_FILE (JObj {[ "length" := JNum 3 ]}) empty_disk in
  Legacy.put_articles (request_of anonymous tee "1") d
  = (modified,
     written Legacy.ARTICLES_FILE
       (JObj (<["1" := JObj tee]> {[ "length" := JNum 3 ]})) empty_disk)
  ∧ Legacy.delete_articles (request_of anonymous tee "1") d = (Uncaught, d).
Proof.
  cbv zeta.
  destruct (@Legacy_object_in_articles_file reference_builtins
              {[ "length" := JNum 3 ]} (JNum 3) 3 1 (request_of anonymous tee "1")
              (written Legacy.ARTICLES_FILE (JObj {[ "length" := JNum 3 ]}) empty_disk)
              (holds_document _ _ _) (lookup_singleton_eq _ _) eq_refl eq_refl
              (conj (Z.le_0_1) eq_refl) (not_elem_of_empty _)) as [Hput Hdel].
  rewrite written_written in Hput. split; [exact Hput|exact Hdel].
Defined.

(** ** The server with a single [try], next to [server.js] *)

Ltac same_outcome :=
  intros req d; repeat case_match; simplify_eq; by split.

(** X19.  The unnamed server that wraps each route in a single [try]
    answers every request with the status [server.js] answers it with, and
    leaves the disk as [server.js] leaves it, for the three article routes,
    the write of the setting document and the upload; the two differ in
    the text of their messages only. *)
Theorem Part001_agrees_with_Main `{!Builtins} (now : Z) :
  let agree (h h' : handler) :=
    ∀ req d, status_of (h req d).1 = status_of (h' req d).1 ∧ (h req d).2 = (h' req d).2 in
  agree (Part001.post_articles now) (Main.post_articles now)
  ∧ agree Part001.put_articles Main.put_articles
  ∧ agree Part001.delete_articles Main.delete_articles
  ∧ agree Part001.post_fond Main.post_fond
  ∧ agree Part001.upload_fond Main.upload_fond.
Proof.
  cbv zeta. split; [|split; [|split; [|split]]].
  - unfold Part001.post_articles, Main.post_articles, Main.requireLogin, Main.validated,
      Main.create_load, Main.create_save, Part001.ARTICLES_FILE, Main.ARTICLES_FILE.
    same_outcome.
  - unfold Part001.put_articles, Main.put_articles, Main.requireLogin, Main.validated,
      Part001.ARTICLES_FILE, Main.ARTICLES_FILE.
    same_outcome.
  - unfold Part001.delete_articles, Main.delete_articles, Main.requireLogin,
      Part001.ARTICLES_FILE, Main.ARTICLES_FILE.
    same_outcome.
  - unfold Part001.post_fond, Main.post_fond, Main.requireLogin,
      Part001.FOND_FILE, Main.FOND_FILE.
    same_outcome.
  - unfold Part001.upload_fond, Main.upload_fond, Main.requireLogin, Main.upload_single,
      Part001.FOND_FILE, Main.FOND_FILE.
    same_outcome.
Qed.
